(** * profile-cloud-demo: the request handlers of [server.js]

    A shallow embedding of the three API handlers of [server.js]
    (image upload, profile creation, profile lookup) and of the values
    they handle.  Every call the handlers make to a collaborator
    (the blob SDK, the Cosmos SDK, [uuidv4], the clock, [console.error])
    is a node of a finite program tree; an environment answers the calls,
    and the run of a program records them in order. *)

From Stdlib Require Import ZArith List String Ascii Bool Lia.
From Stdlib Require Import Floats.SpecFloat.
Import ListNotations.

Local Open Scope string_scope.
Local Open Scope list_scope.

#[local] Set Warnings "-register-all".

(* ================================================================== *)
(** ** JavaScript values *)
(* ================================================================== *)

(** The values that reach the handlers: what [JSON.parse] can build, and
    [undefined] for an absent property.  A number is an IEEE-754 double;
    an object keeps its properties in insertion order. *)
Inductive value : Type :=
| JsUndefined
| JsNull
| JsBoolean (b : bool)
| JsNumber (n : spec_float)
| JsString (s : string)
| JsArray (items : list value)
| JsObject (props : list (string * value)).

(** [ToBoolean]: the test behind [!x] and [a || b]. *)
Definition ToBoolean (v : value) : bool :=
  match v with
  | JsUndefined | JsNull => false
  | JsBoolean b => b
  | JsNumber (S754_zero _) | JsNumber S754_nan => false
  | JsNumber _ => true
  | JsString EmptyString => false
  | JsString _ => true
  | JsArray _ | JsObject _ => true
  end.

(** [v === undefined]. *)
Definition is_undefined (v : value) : bool :=
  match v with
  | JsUndefined => true
  | _ => false
  end.

(** Own property lookup in an object's property list. *)
Fixpoint lookup (k : string) (props : list (string * value)) : option value :=
  match props with
  | [] => None
  | (k', v) :: rest => if String.eqb k k' then Some v else lookup k rest
  end.

(** [v.k] for a value that is not [undefined] or [null], at a property
    name that is neither an array index, [length], nor a member of a
    built-in prototype (the handlers read [name], [age], [bio], [imageUrl]):
    an own property of an object, [undefined] otherwise. *)
Definition GetV (v : value) (k : string) : value :=
  match v with
  | JsObject props =>
      match lookup k props with
      | Some x => x
      | None => JsUndefined
      end
  | _ => JsUndefined
  end.

(** The names of an object's properties, in order. *)
Definition keys (v : value) : list string :=
  match v with
  | JsObject props => map fst props
  | _ => []
  end.

(** A thrown JavaScript error. *)
Record Exn : Type := mkExn { exn_name : string; exn_message : string }.

(** The result of awaiting a promise, or of a step that may throw. *)
Inductive Outcome (A : Type) : Type :=
| Resolved (a : A)
| Rejected (e : Exn).
Arguments Resolved {A} a.
Arguments Rejected {A} e.

(* ================================================================== *)
(** ** [path.extname] *)
(* ================================================================== *)

(** Node's [path.extname] for POSIX paths, after the loop of its
    implementation: a scan from the end of the path for the last dot of
    the last path component. *)
Module path.

(** The scanner state of Node's POSIX [path.extname]; [None] stands for
    the source's [-1]. *)
Record scan : Type := mkScan {
  startDot : option nat;
  startPart : nat;
  end_ : option nat;
  matchedSlash : bool;
  preDotState : Z;
  stopped : bool
}.

Definition scan0 : scan :=
  {| startDot := None; startPart := 0; end_ := None;
     matchedSlash := true; preDotState := 0; stopped := false |}.

Definition is_slash (c : ascii) : bool := Ascii.eqb c "/"%char.
Definition is_dot (c : ascii) : bool := Ascii.eqb c "."%char.

(** One iteration of the loop body, at index [i] holding character [c]. *)
Definition step (i : nat) (c : ascii) (s : scan) : scan :=
  if stopped s then s
  else if is_slash c then
    if negb (matchedSlash s)
    then {| startDot := startDot s; startPart := i + 1; end_ := end_ s;
            matchedSlash := matchedSlash s; preDotState := preDotState s;
            stopped := true |}
    else s
  else
    let s1 :=
      match end_ s with
      | None => {| startDot := startDot s; startPart := startPart s;
                   end_ := Some (i + 1); matchedSlash := false;
                   preDotState := preDotState s; stopped := false |}
      | Some _ => s
      end in
    if is_dot c then
      match startDot s1 with
      | None => {| startDot := Some i; startPart := startPart s1;
                   end_ := end_ s1; matchedSlash := matchedSlash s1;
                   preDotState := preDotState s1; stopped := false |}
      | Some _ =>
          {| startDot := startDot s1; startPart := startPart s1;
             end_ := end_ s1; matchedSlash := matchedSlash s1;
             preDotState := 1; stopped := false |}
      end
    else
      match startDot s1 with
      | Some _ =>
          {| startDot := startDot s1; startPart := startPart s1;
             end_ := end_ s1; matchedSlash := matchedSlash s1;
             preDotState := (-1); stopped := false |}
      | None => s1
      end.

(** The loop [for (i = path.length - 1; i >= 0; --i)]: [rev_chars] holds
    the characters from the last to the first, [n] is their number. *)
Fixpoint loop (rev_chars : list ascii) (n : nat) (s : scan) : scan :=
  match rev_chars, n with
  | c :: rest, S i => loop rest i (step i c s)
  | _, _ => s
  end.

(** [path.slice(from, to)]. *)
Definition slice (p : string) (from to : nat) : string :=
  substring from (to - from) p.

Definition extname (p : string) : string :=
  let s := loop (rev (list_ascii_of_string p)) (String.length p) scan0 in
  match startDot s, end_ s with
  | Some sd, Some e =>
      if Z.eqb (preDotState s) 0
         || (Z.eqb (preDotState s) 1
             && Nat.eqb sd (e - 1) && Nat.eqb sd (startPart s + 1))
      then ""
      else slice p sd e
  | _, _ => ""
  end.

End path.

(* ================================================================== *)
(** ** [Date.prototype.toISOString] *)
(* ================================================================== *)

(** The part of ECMAScript's [Date] behind [new Date().toISOString()]:
    a time value is a number of milliseconds since the epoch, rendered
    in UTC. *)
Module Date.

Local Open Scope Z_scope.

Definition msPerDay : Z := 86400000.

(** Day number and time within the day of a time value (milliseconds
    since 1970-01-01T00:00:00Z); both round towards minus infinity. *)
Definition Day (t : Z) : Z := t / msPerDay.
Definition TimeWithinDay (t : Z) : Z := t mod msPerDay.

Definition HourFromTime (t : Z) : Z := (t / 3600000) mod 24.
Definition MinFromTime (t : Z) : Z := (t / 60000) mod 60.
Definition SecFromTime (t : Z) : Z := (t / 1000) mod 60.
Definition msFromTime (t : Z) : Z := t mod 1000.

(** Year, month (1 to 12) and day of the month (1 to 31) of a day number
    in the proleptic Gregorian calendar, by 400-year eras starting on
    March 1st. *)
Definition civil (day : Z) : Z * Z * Z :=
  let z := day + 719468 in
  let era := z / 146097 in
  let doe := z - era * 146097 in
  let yoe := (doe - doe / 1460 + doe / 36524 - doe / 146096) / 365 in
  let doy := doe - (365 * yoe + yoe / 4 - yoe / 100) in
  let mp := (5 * doy + 2) / 153 in
  let d := doy - (153 * mp + 2) / 5 + 1 in
  let m := if mp <? 10 then mp + 3 else mp - 9 in
  let y := yoe + era * 400 + (if m <=? 2 then 1 else 0) in
  (y, m, d).

Definition digit (n : Z) : ascii := ascii_of_nat (48 + Z.to_nat (n mod 10)).

(** The [w] low decimal digits of [n], most significant first. *)
Fixpoint digits (w : nat) (n : Z) : string :=
  match w with
  | O => EmptyString
  | S w' => (digits w' (n / 10) ++ String (digit n) EmptyString)%string
  end.

(** Four digits for the years 0 to 9999, a sign and six digits
    otherwise. *)
Definition year_string (y : Z) : string :=
  if (0 <=? y) && (y <=? 9999) then digits 4 y
  else if y <? 0 then ("-" ++ digits 6 (Z.abs y))%string
  else ("+" ++ digits 6 y)%string.

Definition toISOString (t : Z) : string :=
  let '(y, m, d) := civil (Day t) in
  (year_string y ++ "-" ++ digits 2 m ++ "-" ++ digits 2 d ++ "T"
   ++ digits 2 (HourFromTime t) ++ ":" ++ digits 2 (MinFromTime t) ++ ":"
   ++ digits 2 (SecFromTime t) ++ "." ++ digits 3 (msFromTime t)
   ++ "Z")%string.

(** *** The calendar of ECMAScript *)

(** The day number of January 1st of year [y]. *)
Definition DayFromYear (y : Z) : Z :=
  365 * (y - 1970) + (y - 1969) / 4 - (y - 1901) / 100 + (y - 1601) / 400.

Definition InLeapYear (y : Z) : bool :=
  (y mod 4 =? 0) && (negb (y mod 100 =? 0) || (y mod 400 =? 0)).

Definition DaysInMonth (y m : Z) : Z :=
  if m =? 2 then (if InLeapYear y then 29 else 28)
  else if m =? 4 then 30 else if m =? 6 then 30
  else if m =? 9 then 30 else if m =? 11 then 30
  else 31.

(** The days of year [y] before the first of month [m]. *)
Definition DaysBeforeMonth (y m : Z) : Z :=
  let l := if InLeapYear y then 1 else 0 in
  if m =? 1 then 0 else if m =? 2 then 31 else if m =? 3 then 59 + l
  else if m =? 4 then 90 + l else if m =? 5 then 120 + l
  else if m =? 6 then 151 + l else if m =? 7 then 181 + l
  else if m =? 8 then 212 + l else if m =? 9 then 243 + l
  else if m =? 10 then 273 + l else if m =? 11 then 304 + l
  else 334 + l.

(** The day number of day [d] of month [m] of year [y]. *)
Definition MakeDay (y m d : Z) : Z :=
  DayFromYear y + DaysBeforeMonth y m + (d - 1).

(** *** The shape of an ISO-8601 timestamp *)

Definition is_digit (c : ascii) : bool :=
  (48 <=? nat_of_ascii c)%nat && (nat_of_ascii c <=? 57)%nat.

Definition digit_value (c : ascii) : nat := nat_of_ascii c - 48.

(** The number two digit characters spell. *)
Definition two (a b : ascii) : nat := 10 * digit_value a + digit_value b.

(** Two digits that spell a number from [lo] to [hi]. *)
Definition between (lo hi : nat) (a b : ascii) : bool :=
  is_digit a && is_digit b && (lo <=? two a b)%nat && (two a b <=? hi)%nat.

(** [-MM-DDTHH:mm:ss.sssZ], with the month in 01..12, the day in 01..31,
    the hour in 00..23, minutes and seconds in 00..59. *)
Definition is_date_time (l : list ascii) : bool :=
  match l with
  | [s1; m1; m2; s2; d1; d2; s3; h1; h2; s4; n1; n2; s5; c1; c2; s6;
     f1; f2; f3; z] =>
      Ascii.eqb s1 "-" && between 1 12 m1 m2
      && Ascii.eqb s2 "-" && between 1 31 d1 d2
      && Ascii.eqb s3 "T" && between 0 23 h1 h2
      && Ascii.eqb s4 ":" && between 0 59 n1 n2
      && Ascii.eqb s5 ":" && between 0 59 c1 c2
      && Ascii.eqb s6 "." && is_digit f1 && is_digit f2 && is_digit f3
      && Ascii.eqb z "Z"
  | _ => false
  end.

(** An ISO-8601 date and time in UTC, in the extended format: a year of
    four digits, or a sign and six digits, then [is_date_time]. *)
Definition is_iso8601 (s : string) : bool :=
  match list_ascii_of_string s with
  | y1 :: y2 :: y3 :: y4 :: rest =>
      if is_digit y1
      then is_digit y2 && is_digit y3 && is_digit y4 && is_date_time rest
      else
        (Ascii.eqb y1 "+" || Ascii.eqb y1 "-")
        && is_digit y2 && is_digit y3 && is_digit y4
        && match rest with
           | y5 :: y6 :: y7 :: rest' =>
               is_digit y5 && is_digit y6 && is_digit y7
               && is_date_time rest'
           | _ => false
           end
  | _ => false
  end.

End Date.

(* ================================================================== *)
(** ** Requests and responses *)
(* ================================================================== *)

(** [req.file] as multer's memory storage fills it in. *)
Record File : Type := mkFile {
  originalname : string;
  mimetype : string;
  buffer : list Byte.byte
}.

(** What a handler sends: [res.status(c).send(text)] or
    [res.status(c).json(v)]; [res.json(v)] alone keeps status 200. *)
Inductive Payload : Type :=
| Text (s : string)
| Json (v : value).

Record Response : Type := mkResponse { status : Z; payload : Payload }.

Definition send (code : Z) (text : string) : Response :=
  {| status := code; payload := Text text |}.

Definition json (code : Z) (v : value) : Response :=
  {| status := code; payload := Json v |}.

(** The query specification handed to [cosmosContainer.items.query]. *)
Record SqlQuerySpec : Type := mkQuery {
  query : string;
  parameters : list (string * value)
}.

(* ================================================================== *)
(** ** [JSON.stringify], as the reader of a response sees it *)
(* ================================================================== *)

(** [res.json(v)] sends [JSON.stringify(v)], and the client reads the
    body with [JSON.parse].  Both follow ECMAScript (25.5); the text in
    between is left out and a value is mapped to the value that is read
    back from its text. *)
Module JSON.

(** SerializeJSONProperty, read back: [undefined] has no JSON text; a
    finite number is written with digits that read back as the same
    number, except that [-0] is written [0]; a number that is not finite
    is written [null]; SerializeJSONArray writes [null] for an element
    without JSON text; SerializeJSONObject leaves out a property without
    JSON text. *)
Fixpoint SerializeJSONProperty (v : value) : option value :=
  match v with
  | JsUndefined => None
  | JsNull => Some JsNull
  | JsBoolean b => Some (JsBoolean b)
  | JsNumber (S754_finite s m e) => Some (JsNumber (S754_finite s m e))
  | JsNumber (S754_zero _) => Some (JsNumber (S754_zero false))
  | JsNumber (S754_infinity _) | JsNumber S754_nan => Some JsNull
  | JsString s => Some (JsString s)
  | JsArray items =>
      Some (JsArray
              (map (fun x => match SerializeJSONProperty x with
                             | Some j => j
                             | None => JsNull
                             end) items))
  | JsObject props =>
      Some (JsObject
              (flat_map (fun kv : string * value =>
                           let (k, x) := kv in
                           match SerializeJSONProperty x with
                           | Some j => [(k, j)]
                           | None => []
                           end) props))
  end.

(** The properties that are read back from an object. *)
Definition SerializeJSONObject (props : list (string * value))
  : list (string * value) :=
  flat_map (fun kv : string * value =>
              let (k, x) := kv in
              match SerializeJSONProperty x with
              | Some j => [(k, j)]
              | None => []
              end) props.

(** A value that is read back as it was written. *)
Definition exact (v : value) : Prop := SerializeJSONProperty v = Some v.

End JSON.

(** What the client reads from a response: the value of the JSON body
    that [res.json] wrote; a body written by [res.send(text)] is not
    JSON. *)
Definition received (r : Response) : option value :=
  match payload r with
  | Json v => JSON.SerializeJSONProperty v
  | Text _ => None
  end.

(* ================================================================== *)
(** ** Calls to collaborators, and programs over them *)
(* ================================================================== *)

(** The calls the handlers make, each with the arguments the source
    passes. *)
Inductive Call : Type :=
| uuidv4
| new_Date
| createIfNotExists
| getBlockBlobClient (blobName : string)
| uploadData (blobName : string) (data : list Byte.byte)
             (blobContentType : string)
| items_create (doc : value)
| items_query_fetchAll (q : SqlQuerySpec)
| console_error (err : Exn).

(** What each call gives back: [uuidv4()] a string, [new Date()] a time
    value in milliseconds since the epoch, [getBlockBlobClient(name)] the
    client's [url]; an awaited SDK promise resolves or rejects;
    [fetchAll()] resolves to [resources], a list or nothing. *)
Definition Answer (c : Call) : Type :=
  match c with
  | uuidv4 => string
  | new_Date => Z
  | createIfNotExists => Outcome unit
  | getBlockBlobClient _ => string
  | uploadData _ _ _ => Outcome unit
  | items_create _ => Outcome unit
  | items_query_fetchAll _ => Outcome (option (list value))
  | console_error _ => unit
  end.

(** The calls that reach the object store or the document store. *)
Definition is_store_call (c : Call) : bool :=
  match c with
  | createIfNotExists | uploadData _ _ _
  | items_create _ | items_query_fetchAll _ => true
  | uuidv4 | new_Date | getBlockBlobClient _ | console_error _ => false
  end.

(** A program: a result, or a call followed by the rest of the program. *)
Inductive Prog (A : Type) : Type :=
| Ret (a : A)
| Do (c : Call) (k : Answer c -> Prog A).
Arguments Ret {A} a.
Arguments Do {A} c k.

Fixpoint fmap {A B : Type} (f : A -> B) (p : Prog A) : Prog B :=
  match p with
  | Ret a => Ret (f a)
  | Do c k => Do c (fun x => fmap f (k x))
  end.

(** The body of an [async] function: it runs to a value or throws. *)
Definition Async (A : Type) : Type := Prog (Outcome A).

Fixpoint bind {A B : Type} (m : Async A) (f : A -> Async B) : Async B :=
  match m with
  | Ret (Resolved a) => f a
  | Ret (Rejected e) => Ret (Rejected e)
  | Do c k => Do c (fun x => bind (k x) f)
  end.

Definition ret {A : Type} (a : A) : Async A := Ret (Resolved a).

Definition throw {A : Type} (e : Exn) : Async A := Ret (Rejected e).

(** A call that cannot fail. *)
Definition perform (c : Call) : Async (Answer c) :=
  Do c (fun x => Ret (Resolved x)).

(** [try { body } catch (err) { handler }]. *)
Fixpoint try_catch {A : Type} (body : Async A) (handler : Exn -> Async A)
  : Async A :=
  match body with
  | Ret (Resolved a) => Ret (Resolved a)
  | Ret (Rejected e) => handler e
  | Do c k => Do c (fun x => try_catch (k x) handler)
  end.

Declare Scope async_scope.
Delimit Scope async_scope with async.
Notation "x <- m ;; k" := (bind m (fun x => k))
  (at level 100, m at next level, right associativity) : async_scope.
Notation "m ;;; k" := (bind m (fun _ => k))
  (at level 100, right associativity) : async_scope.

(** The awaited SDK calls: a rejection of the promise is thrown at the
    [await]. *)
Definition blobContainerClient_createIfNotExists : Async unit :=
  Do createIfNotExists Ret.

Definition blockBlobClient_uploadData (blobName : string)
  (data : list Byte.byte) (blobContentType : string) : Async unit :=
  Do (uploadData blobName data blobContentType) Ret.

Definition cosmosContainer_items_create (doc : value) : Async unit :=
  Do (items_create doc) Ret.

Definition cosmosContainer_items_query_fetchAll (q : SqlQuerySpec)
  : Async (option (list value)) :=
  Do (items_query_fetchAll q) Ret.

(* ================================================================== *)
(** ** The handlers of [server.js] *)
(* ================================================================== *)

Local Open Scope async_scope.

(** [const { name, age, bio, imageUrl } = req.body]: destructuring
    [undefined] or [null] throws a [TypeError]. *)
Definition destructure_body (body : value)
  : Async (value * value * value * value) :=
  match body with
  | JsUndefined =>
      throw {| exn_name := "TypeError";
               exn_message := "Cannot destructure property 'name' of 'req.body' as it is undefined." |}
  | JsNull =>
      throw {| exn_name := "TypeError";
               exn_message := "Cannot destructure property 'name' of 'req.body' as it is null." |}
  | _ => ret (GetV body "name", GetV body "age",
              GetV body "bio", GetV body "imageUrl")
  end.

(** [a || b] on strings: the empty string is the only falsy one. *)
Definition str_or (a b : string) : string :=
  match a with
  | EmptyString => b
  | String _ _ => a
  end.

(** [app.post("/api/upload", upload.single("photo"), ...)], the handler
    proper; [file] is [req.file]. *)
Definition post_api_upload (file : option File) : Async Response :=
  try_catch
    (match file with
     | None => ret (send 400 "No file uploaded. Field name must be 'photo'.")
     | Some f =>
         blobContainerClient_createIfNotExists ;;;
         let ext := str_or (path.extname (originalname f)) ".jpg" in
         u <- perform uuidv4 ;;
         let blobName := (u ++ ext)%string in
         url <- perform (getBlockBlobClient blobName) ;;
         blockBlobClient_uploadData blobName (buffer f) (mimetype f) ;;;
         let imageUrl := url in
         ret (json 200 (JsObject [("imageUrl", JsString imageUrl)]))
     end)
    (fun err =>
       perform (console_error err) ;;;
       ret (send 500 "Upload failed.")).

(** The object literal
    [{ id, name, age, bio, imageUrl, createdAt: new Date().toISOString() }]. *)
Definition profile_doc (id : string) (name age bio imageUrl : value)
  (createdAt : string) : value :=
  JsObject [("id", JsString id);
            ("name", name);
            ("age", age);
            ("bio", bio);
            ("imageUrl", imageUrl);
            ("createdAt", JsString createdAt)].

(** [app.post("/api/profiles", ...)]; [body] is [req.body]. *)
Definition post_api_profiles (body : value) : Async Response :=
  try_catch
    (fields <- destructure_body body ;;
     let '(name, age, bio, imageUrl) := fields in
     if negb (ToBoolean name) || is_undefined age
        || negb (ToBoolean bio) || negb (ToBoolean imageUrl)
     then ret (send 400 "Missing fields: name, age, bio, imageUrl are required.")
     else
       id <- perform uuidv4 ;;
       now <- perform new_Date ;;
       let doc := profile_doc id name age bio imageUrl (Date.toISOString now) in
       cosmosContainer_items_create doc ;;;
       ret (json 201 doc))
    (fun err =>
       perform (console_error err) ;;;
       ret (send 500 "Create profile failed.")).

(** The object literal
    [{ query: "SELECT * FROM c WHERE c.id = @id",
       parameters: [{ name: "@id", value: id }] }]. *)
Definition by_id (id : string) : SqlQuerySpec :=
  {| query := "SELECT * FROM c WHERE c.id = @id";
     parameters := [("@id", JsString id)] |}.

(** [app.get("/api/profiles/:id", ...)]; [id] is [req.params.id]. *)
Definition get_api_profiles_id (id : string) : Async Response :=
  try_catch
    (let q := {| query := "SELECT * FROM c WHERE c.id = @id";
                 parameters := [("@id", JsString id)] |} in
     resources <- cosmosContainer_items_query_fetchAll q ;;
     match resources with
     | None | Some [] => ret (send 404 "Not found")
     | Some (first :: _) => ret (json 200 first)
     end)
    (fun err =>
       perform (console_error err) ;;;
       ret (send 500 "Read profile failed.")).

Local Close Scope async_scope.

(* ================================================================== *)
(** ** The multipart layer in front of the upload handler *)
(* ================================================================== *)

(** [multer({ storage: multer.memoryStorage(),
              limits: { fileSize: 4 * 1024 * 1024 } })]. *)
Record Multer : Type := mkMulter { limits_fileSize : Z }.

Definition upload : Multer := {| limits_fileSize := 4 * 1024 * 1024 |}.

(** A request to the upload route before multer has run: the file part
    sent under the field [photo], if there is one. *)
Record UploadRequest : Type := mkUploadRequest { photo : option File }.

Inductive MulterError : Type :=
| LIMIT_FILE_SIZE
| LIMIT_UNEXPECTED_FILE (field : string).

(** Modelled from the spec: multer's [single("photo")] middleware, whose
    code is not part of [server.js].  Section 4.2: the input is at most
    the size limit, and a request exceeding it is rejected by the
    receiving layer before the handler logic; otherwise the handler sees
    the file sent under [photo], or none. *)
Definition single (m : Multer) (req : UploadRequest)
  : MulterError + option File :=
  match photo req with
  | None => inr None
  | Some f =>
      if (limits_fileSize m <? Z.of_nat (List.length (buffer f)))%Z
      then inl LIMIT_FILE_SIZE
      else inr (Some f)
  end.

(** [app.post("/api/upload", upload.single("photo"), handler)]: the
    middleware runs first; on an error it calls [next(err)] and the
    handler is never entered. *)
Definition route_post_api_upload (req : UploadRequest)
  : Prog (MulterError + Outcome Response) :=
  match single upload req with
  | inl err => Ret (inl err)
  | inr file => fmap inr (post_api_upload file)
  end.

(** A file part of a multipart body as busboy hands it to multer: the
    name of its form field and the file, whose [originalname] is the
    part's [filename].  Text fields do not bear on [req.file]; they are
    left out and taken to be within busboy's default limits. *)
Record FilePart : Type := mkFilePart { fieldname : string; part : File }.

(** [filesLeft] as [_makeMiddleware] of multer sets it up for
    [single(name)], that is for the fields [[{ name, maxCount: 1 }]]:
    one file under [name], none under any other field. *)
Definition filesLeft_single (name : string) : string -> nat :=
  fun field => if String.eqb field name then 1 else 0.

(** Modelled from the spec: the size test of the multipart layer, whose
    code is not part of [server.js].  Section 4.2: the input is at most
    the size limit; a file is over the limit when it is longer. *)
Definition over_limit (m : Multer) (f : File) : bool :=
  (limits_fileSize m <? Z.of_nat (List.length (buffer f)))%Z.

(** multer's middleware, after [lib/index.js] ([wrappedFileFilter]) and
    [lib/make-middleware.js] of multer with its memory storage.  The file
    parts are taken in the order they arrive.  A part without a file name
    is skipped ([if (!filename) return fileStream.resume()]); a part under
    a field that has no file left is refused with [LIMIT_UNEXPECTED_FILE],
    otherwise the field has one file less left; a file over the size
    limit is refused with [LIMIT_FILE_SIZE].  The first refusal ends the
    request with [next(err)]; without one, [req.file] is the file taken
    last, or stays [undefined].  A request that is not multipart is
    passed on untouched, like one without file parts. *)
Fixpoint makeMiddleware (m : Multer) (filesLeft : string -> nat)
  (parts : list FilePart) (file : option File) : MulterError + option File :=
  match parts with
  | [] => inr file
  | p :: rest =>
      match originalname (part p) with
      | EmptyString => makeMiddleware m filesLeft rest file
      | String _ _ =>
          match filesLeft (fieldname p) with
          | O => inl (LIMIT_UNEXPECTED_FILE (fieldname p))
          | S n =>
              if over_limit m (part p)
              then inl LIMIT_FILE_SIZE
              else
                makeMiddleware m
                  (fun field => if String.eqb field (fieldname p) then n
                                else filesLeft field)
                  rest (Some (part p))
          end
      end
  end.

(** [upload.single("photo")] on the file parts of a request. *)
Definition upload_single_photo (parts : list FilePart)
  : MulterError + option File :=
  makeMiddleware upload (filesLeft_single "photo") parts None.

(** [app.post("/api/upload", upload.single("photo"), handler)] on the
    file parts of a request: the handler is entered when the middleware
    has refused nothing. *)
Definition app_post_api_upload (parts : list FilePart)
  : Prog (MulterError + Outcome Response) :=
  match upload_single_photo parts with
  | inl err => Ret (inl err)
  | inr file => fmap inr (post_api_upload file)
  end.


(** The file parts of a request that carries at most one, under
    [photo]. *)
Definition file_parts (req : UploadRequest) : list FilePart :=
  match photo req with
  | None => []
  | Some f => [mkFilePart "photo" f]
  end.

(** The three API requests, and the handler each one reaches. *)
Inductive Request : Type :=
| POST_api_upload (file : option File)
| POST_api_profiles (body : value)
| GET_api_profiles_id (id : string).

Definition handler (r : Request) : Async Response :=
  match r with
  | POST_api_upload file => post_api_upload file
  | POST_api_profiles body => post_api_profiles body
  | GET_api_profiles_id id => get_api_profiles_id id
  end.

(** The fixed text each handler sends from its [catch] block. *)
Definition failure_text (r : Request) : string :=
  match r with
  | POST_api_upload _ => "Upload failed."
  | POST_api_profiles _ => "Create profile failed."
  | GET_api_profiles_id _ => "Read profile failed."
  end.

(* ================================================================== *)
(** ** Running a program against an environment *)
(* ================================================================== *)

(** One call as it happened: the call and the answer it got. *)
Record Event : Type := mkEvent { call : Call; answer : Answer call }.

(** The rejection an event carries, when it is an SDK call whose promise
    rejected. *)
Definition rejection (ev : Event) : option Exn :=
  match ev with
  | mkEvent createIfNotExists (Rejected e) => Some e
  | mkEvent (uploadData _ _ _) (Rejected e) => Some e
  | mkEvent (items_create _) (Rejected e) => Some e
  | mkEvent (items_query_fetchAll _) (Rejected e) => Some e
  | _ => None
  end.

(** The store calls of a trace, in order. *)
Definition store_calls (t : list Event) : list Call :=
  filter is_store_call (map call t).

(** An environment: a state and the way it answers each call. *)
Record Env (W : Type) : Type := mkEnv {
  respond : forall c : Call, W -> Answer c * W
}.
Arguments respond {W} e c w.

(** [run env p w]: the result of [p], the final state, and the calls made
    with their answers, first call first. *)
Fixpoint run {W A : Type} (env : Env W) (p : Prog A) (w : W)
  : A * W * list Event :=
  match p with
  | Ret a => (a, w, [])
  | Do c k =>
      let (x, w1) := respond env c w in
      let '(a, w2, t) := run env (k x) w1 in
      (a, w2, mkEvent c x :: t)
  end.

(* ================================================================== *)
(** ** A reference environment *)
(* ================================================================== *)

(** A stored blob: its name, bytes and content type. *)
Record Blob : Type := mkBlob {
  blob_name : string;
  blob_data : list Byte.byte;
  blob_contentType : string
}.

(** The state of the world the handlers talk to.  [faults] says, for
    each store call still to come, whether the store rejects it (a call
    past the end of the list is served). *)
Record World : Type := mkWorld {
  uuid_counter : nat;
  clock : Z;
  container_url : string;
  container_exists : bool;
  blobs : list Blob;
  documents : list value;
  faults : list bool;
  console : list Exn
}.

Definition hex_digit (n : nat) : ascii :=
  match n with
  | 0 => "0" | 1 => "1" | 2 => "2" | 3 => "3" | 4 => "4" | 5 => "5"
  | 6 => "6" | 7 => "7" | 8 => "8" | 9 => "9" | 10 => "a" | 11 => "b"
  | 12 => "c" | 13 => "d" | 14 => "e" | _ => "f"
  end%char.

Fixpoint hex (w : nat) (n : nat) : string :=
  match w with
  | O => EmptyString
  | S w' => (hex w' (n / 16) ++ String (hex_digit (n mod 16)) EmptyString)%string
  end.

(** The identifier the reference generator hands out at its [n]-th call,
    laid out as a version-4 UUID. *)
Definition uuid_of (n : nat) : string :=
  ("00000000-0000-4000-8000-" ++ hex 12 n)%string.

(** [c.id = value] for a stored document. *)
Definition has_id (i : string) (d : value) : bool :=
  match GetV d "id" with
  | JsString j => String.eqb i j
  | _ => false
  end.

Definition store_error (what : string) : Exn :=
  {| exn_name := "RestError"; exn_message := what |}.

Definition set_faults (w : World) (fs : list bool) : World :=
  {| uuid_counter := uuid_counter w; clock := clock w;
     container_url := container_url w;
     container_exists := container_exists w; blobs := blobs w;
     documents := documents w; faults := fs; console := console w |}.

(** Modelled from the spec: the document store and the object store are
    external services.  Section 3: the store keeps [id] unique, so a
    create with an [id] already present is rejected; section 4.4: the
    lookup is a filter on the [id] field; section 4.2: ensuring the
    container is idempotent, and a write creates one object under the
    given name with its content type.  Any store call may also fail. *)
Definition serve (c : Call) (w : World) : Answer c * World :=
  match c return Answer c * World with
  | uuidv4 =>
      (uuid_of (uuid_counter w),
       {| uuid_counter := S (uuid_counter w); clock := clock w;
          container_url := container_url w;
          container_exists := container_exists w; blobs := blobs w;
          documents := documents w; faults := faults w;
          console := console w |})
  | new_Date => (clock w, w)
  | getBlockBlobClient blobName =>
      ((container_url w ++ "/" ++ blobName)%string, w)
  | console_error err =>
      (tt,
       {| uuid_counter := uuid_counter w; clock := clock w;
          container_url := container_url w;
          container_exists := container_exists w; blobs := blobs w;
          documents := documents w; faults := faults w;
          console := console w ++ [err] |})
  | createIfNotExists =>
      (Resolved tt,
       {| uuid_counter := uuid_counter w; clock := clock w;
          container_url := container_url w;
          container_exists := true; blobs := blobs w;
          documents := documents w; faults := faults w;
          console := console w |})
  | uploadData blobName data blobContentType =>
      if container_exists w then
        (Resolved tt,
         {| uuid_counter := uuid_counter w; clock := clock w;
            container_url := container_url w;
            container_exists := container_exists w;
            blobs := filter (fun b => negb (String.eqb (blob_name b) blobName))
                            (blobs w)
                     ++ [mkBlob blobName data blobContentType];
            documents := documents w; faults := faults w;
            console := console w |})
      else (Rejected (store_error "ContainerNotFound"), w)
  | items_create doc =>
      match GetV doc "id" with
      | JsString i =>
          if existsb (has_id i) (documents w)
          then (Rejected (store_error "Conflict"), w)
          else
            (Resolved tt,
             {| uuid_counter := uuid_counter w; clock := clock w;
                container_url := container_url w;
                container_exists := container_exists w; blobs := blobs w;
                documents := documents w ++ [doc]; faults := faults w;
                console := console w |})
      | _ => (Rejected (store_error "BadRequest"), w)
      end
  | items_query_fetchAll q =>
      match parameters q with
      | [(_, JsString i)] =>
          if String.eqb (query q) "SELECT * FROM c WHERE c.id = @id"
          then (Resolved (Some (filter (has_id i) (documents w))), w)
          else (Rejected (store_error "BadRequest"), w)
      | _ => (Rejected (store_error "BadRequest"), w)
      end
  end.

(** The rejection a faulty store answers with, whatever the store call
    (the other calls are never rejected). *)
Definition reject (c : Call) : Answer c :=
  match c return Answer c with
  | createIfNotExists => Rejected (store_error "ServiceUnavailable")
  | uploadData _ _ _ => Rejected (store_error "ServiceUnavailable")
  | items_create _ => Rejected (store_error "ServiceUnavailable")
  | items_query_fetchAll _ => Rejected (store_error "ServiceUnavailable")
  | uuidv4 => EmptyString
  | new_Date => 0%Z
  | getBlockBlobClient _ => EmptyString
  | console_error _ => tt
  end.

Definition cloud_respond (c : Call) (w : World) : Answer c * World :=
  if is_store_call c then
    match faults w with
    | true :: rest => (reject c, set_faults w rest)
    | false :: rest => serve c (set_faults w rest)
    | [] => serve c w
    end
  else serve c w.

Definition cloud : Env World := {| respond := cloud_respond |}.

(* ================================================================== *)
(** ** Vocabulary of the properties *)
(* ================================================================== *)

(** The state of the [path.extname] scanner when the characters of
    [chars] at [k] and above are done: the end of the extension lies
    above [k], and the recorded dot is a dot of the path below that
    end. *)
Definition scanned (chars : list ascii) (k : nat) (s : path.scan) : Prop :=
  (forall e, path.end_ s = Some e -> k < e <= List.length chars)
  /\ (forall sd, path.startDot s = Some sd ->
        nth_error chars sd = Some "."%char
        /\ exists e, path.end_ s = Some e /\ sd < e).

(** A body the handler can destructure: anything but [undefined] and
    [null]. *)
Definition destructurable (body : value) : Prop :=
  body <> JsUndefined /\ body <> JsNull.

(** The test [!name || age === undefined || !bio || !imageUrl]. *)
Definition missing_fields (body : value) : bool :=
  negb (ToBoolean (GetV body "name")) || is_undefined (GetV body "age")
  || negb (ToBoolean (GetV body "bio"))
  || negb (ToBoolean (GetV body "imageUrl")).

(** All four fields are there: [name], [bio], [imageUrl] truthy and
    [age] not [undefined]. *)
Definition all_fields (body : value) : Prop :=
  ToBoolean (GetV body "name") = true
  /\ GetV body "age" <> JsUndefined
  /\ ToBoolean (GetV body "bio") = true
  /\ ToBoolean (GetV body "imageUrl") = true.

(** The record the handler composes for [body] from an identifier and a
    time value. *)
Definition new_profile (body : value) (id : string) (now : Z) : value :=
  profile_doc id (GetV body "name") (GetV body "age") (GetV body "bio")
    (GetV body "imageUrl") (Date.toISOString now).

(** [handled msg out t]: wherever a call of the trace [t] was rejected,
    the result is the response 500 with the text [msg], and the only call
    after it is the [console.error] of the rejection. *)
Fixpoint handled (msg : string) (out : Outcome Response) (t : list Event)
  : Prop :=
  match t with
  | [] => True
  | ev :: post =>
      match rejection ev with
      | Some e =>
          out = Resolved (send 500 msg)
          /\ post = [mkEvent (console_error e) tt]
      | None => True
      end
      /\ handled msg out post
  end.

(** [r] carries every property of [d], with a value that is written
    to JSON as the one in [d] is: [r] may be [d] itself, or [d] as a store
    that keeps JSON hands it back, with properties of the store's own
    besides. *)
Definition extends (d r : value) : Prop :=
  forall k, In k (keys d) ->
    JSON.SerializeJSONProperty (GetV r k) = JSON.SerializeJSONProperty (GetV d k).

(** What the round trip asks of a document store: a lookup by [id] that
    the store serves right after it accepted a record with that [id]
    finds, first, a record with the properties of the accepted one. *)
Definition read_your_writes {W : Type} (env : Env W) : Prop :=
  forall (doc : value) (id : string) (w w1 w2 : W)
         (resources : option (list value)),
    GetV doc "id" = JsString id ->
    respond env (items_create doc) w = (Resolved tt, w1) ->
    respond env (items_query_fetchAll (by_id id)) w1
      = (Resolved resources, w2) ->
    exists first rest,
      resources = Some (first :: rest) /\ extends doc first.

(** The values that JSON carries as they are: [null], a boolean, a
    string, a finite number other than [-0]. *)
Definition json_scalar (v : value) : bool :=
  match v with
  | JsNull | JsBoolean _ | JsString _ => true
  | JsNumber (S754_finite _ _ _) | JsNumber (S754_zero false) => true
  | _ => false
  end.

(** The four fields a client submits. *)
Definition submitted : list string := ["name"; "age"; "bio"; "imageUrl"].





(** A store that serves its next call. *)
Definition serves_next (w : World) : Prop := hd false (faults w) = false.

(* ================================================================== *)
(** ** Example data *)
(* ================================================================== *)

(** A world to run examples in: an empty store that serves every call. *)
Definition world0 : World :=
  {| uuid_counter := 7; clock := 1700000000000;
     container_url := "https://acct.blob.core.windows.net/photos";
     container_exists := false; blobs := []; documents := [];
     faults := []; console := [] |}.

(** A store that serves the first call and rejects the second. *)
Definition flaky : World := set_faults world0 [false; true].

Definition unavailable : Exn := store_error "ServiceUnavailable".

(** The body of the example of the specification (section 8); the number
    30 is 15 * 2^1. *)
Definition ana : value :=
  JsObject [("name", JsString "Ana");
            ("age", JsNumber (S754_finite false 15 1));
            ("bio", JsString "hi");
            ("imageUrl", JsString "https://x/y.jpg")].

Definition ana_id : string := "00000000-0000-4000-8000-000000000007".

Definition ana_doc : value :=
  JsObject [("id", JsString ana_id);
            ("name", JsString "Ana");
            ("age", JsNumber (S754_finite false 15 1));
            ("bio", JsString "hi");
            ("imageUrl", JsString "https://x/y.jpg");
            ("createdAt", JsString "2023-11-14T22:13:20.000Z")].

Definition ana_trace : list Event :=
  [mkEvent uuidv4 ana_id; mkEvent new_Date 1700000000000%Z;
   mkEvent (items_create ana_doc) (Resolved tt)].

(** [world0] after one [uuidv4()]. *)
Definition world0_drawn : World := snd (respond cloud uuidv4 world0).

(** The world after the example profile was created in [world0]. *)
Definition world1 : World :=
  snd (fst (run cloud (post_api_profiles ana) world0)).

(** A body that also carries an [id], a [createdAt] and one more
    property of the client's choosing, and [null] for [age]. *)
Definition mallory : value :=
  JsObject [("id", JsString "chosen");
            ("createdAt", JsString "1999-01-01T00:00:00.000Z");
            ("admin", JsBoolean true);
            ("name", JsString "Mal");
            ("age", JsNull);
            ("bio", JsString "x");
            ("imageUrl", JsString "u")].

Definition mallory_doc : value :=
  JsObject [("id", JsString ana_id);
            ("name", JsString "Mal");
            ("age", JsNull);
            ("bio", JsString "x");
            ("imageUrl", JsString "u");
            ("createdAt", JsString "2023-11-14T22:13:20.000Z")].

Definition mallory_trace : list Event :=
  [mkEvent uuidv4 ana_id; mkEvent new_Date 1700000000000%Z;
   mkEvent (items_create mallory_doc) (Resolved tt)].

Definition mallory_world : World :=
  snd (fst (run cloud (post_api_profiles mallory) world0)).

(** A body without [age]. *)
Definition ageless : value :=
  JsObject [("name", JsString "Ana"); ("bio", JsString "hi");
            ("imageUrl", JsString "https://x/y.jpg")].

(** A body with the given [age] and the other fields of [ana]. *)
Definition aged (age : value) : value :=
  JsObject [("name", JsString "Ana"); ("age", age); ("bio", JsString "hi");
            ("imageUrl", JsString "https://x/y.jpg")].

Definition cat : File :=
  {| originalname := "cat.png"; mimetype := "image/png";
     buffer := [Byte.x89; Byte.x50; Byte.x4e; Byte.x47] |}.

Definition cat_name : string := "00000000-0000-4000-8000-000000000007.png".

Definition cat_url : string :=
  "https://acct.blob.core.windows.net/photos/00000000-0000-4000-8000-000000000007.png".

Definition cat_trace : list Event :=
  [mkEvent createIfNotExists (Resolved tt);
   mkEvent uuidv4 ana_id;
   mkEvent (getBlockBlobClient cat_name) cat_url;
   mkEvent (uploadData cat_name (buffer cat) (mimetype cat)) (Resolved tt)].

Definition cat_world : World :=
  snd (fst (run cloud (post_api_upload (Some cat)) world0)).

(** The number that [JSON.parse] reads from [1e999]. *)
Definition infinity : value := JsNumber (S754_infinity false).

(** What the handler composes for [aged infinity] in [world0], and what
    a client reads from it. *)
Definition rich_doc : value :=
  JsObject [("id", JsString ana_id);
            ("name", JsString "Ana");
            ("age", infinity);
            ("bio", JsString "hi");
            ("imageUrl", JsString "https://x/y.jpg");
            ("createdAt", JsString "2023-11-14T22:13:20.000Z")].

Definition rich_read : value :=
  JsObject [("id", JsString ana_id);
            ("name", JsString "Ana");
            ("age", JsNull);
            ("bio", JsString "hi");
            ("imageUrl", JsString "https://x/y.jpg");
            ("createdAt", JsString "2023-11-14T22:13:20.000Z")].

(** The world after [aged infinity] was created in [world0]. *)
Definition rich_world : World :=
  snd (fst (run cloud (post_api_profiles (aged infinity)) world0)).

(** The world after the example profile was created in [flaky]: the
    store rejects its next call. *)
Definition flaky1 : World :=
  snd (fst (run cloud (post_api_profiles ana) flaky)).


(** A file of 4 MiB and one byte. *)
Definition big : File :=
  {| originalname := "big.png"; mimetype := "image/png";
     buffer := repeat Byte.x00 (Z.to_nat 4194305) |}.

(* ================================================================== *)
(** ** The start-up check of the environment *)
(* ================================================================== *)

(** [process.env]: each variable is a string, or absent. *)
Definition ProcessEnv : Type := string -> option string.

Definition requiredEnv : list string :=
  ["COSMOS_ENDPOINT"; "COSMOS_KEY"; "COSMOS_DATABASE"; "COSMOS_CONTAINER";
   "BLOB_CONNECTION_STRING"; "BLOB_CONTAINER"].

(** [!process.env[k]]: the variable is absent, or the empty string. *)
Definition env_missing (env : ProcessEnv) (k : string) : bool :=
  match env k with
  | None => true
  | Some EmptyString => true
  | Some (String _ _) => false
  end.

(** The template literal of the message. *)
Definition missing_message (k : string) : string :=
  ("Missing env var: " ++ k)%string.

(** [for (const k of ks) { if (!process.env[k]) console.error(...) }]:
    [console] holds the lines written to standard error so far. *)
Fixpoint validate_loop (env : ProcessEnv) (ks : list string)
  (console : list string) : list string :=
  match ks with
  | [] => console
  | k :: rest =>
      validate_loop env rest
        (if env_missing env k then console ++ [missing_message k]
         else console)
  end.

Definition validate_env (env : ProcessEnv) (console : list string)
  : list string :=
  validate_loop env requiredEnv console.

(* ================================================================== *)
(** ** Vocabulary of the further properties *)
(* ================================================================== *)

(** The [console.error] calls of a trace. *)
Definition is_log_call (c : Call) : bool :=
  match c with
  | console_error _ => true
  | _ => false
  end.

Definition logs (t : list Event) : list Call :=
  filter is_log_call (map call t).

(** The status codes each handler sends. *)
Definition statuses (r : Request) : list Z :=
  match r with
  | POST_api_upload _ => [200; 400; 500]
  | POST_api_profiles _ => [201; 400; 500]
  | GET_api_profiles_id _ => [200; 404; 500]
  end%Z.

(** The store calls each handler makes. *)
Definition store_of (r : Request) (c : Call) : bool :=
  match r, c with
  | POST_api_upload _, (createIfNotExists | uploadData _ _ _) => true
  | POST_api_profiles _, items_create _ => true
  | GET_api_profiles_id _, items_query_fetchAll _ => true
  | _, _ => false
  end.

(** The most store calls a handler makes for one request. *)
Definition store_budget (r : Request) : nat :=
  match r with
  | POST_api_upload _ => 2
  | POST_api_profiles _ => 1
  | GET_api_profiles_id _ => 1
  end.

(** Where the error [e] behind a failed request comes from: a store call
    of the run that was rejected with it, or the [TypeError] of a body
    that cannot be destructured. *)
Definition cause (r : Request) (t : list Event) (e : Exn) : Prop :=
  (exists ev, In ev t /\ rejection ev = Some e)
  \/ (exists body, r = POST_api_profiles body /\ ~ destructurable body
                   /\ exn_name e = "TypeError").

(** What a run of a handler looks like, whatever the request and the
    environment. *)
Definition shape (r : Request) (out : Outcome Response) (t : list Event)
  : Prop :=
  exists resp,
    out = Resolved resp
    /\ In (status resp) (statuses r)
    /\ (status resp <> 500%Z -> logs t = [])
    /\ forallb (store_of r) (store_calls t) = true
    /\ List.length (store_calls t) <= store_budget r
    /\ (status resp = 500%Z ->
        exists e, logs t = [console_error e] /\ cause r t e).

(** A request the handlers turn down as the client's mistake. *)
Definition invalid (r : Request) : Prop :=
  match r with
  | POST_api_upload file => file = None
  | POST_api_profiles body =>
      destructurable body /\ missing_fields body = true
  | GET_api_profiles_id _ => False
  end.

(** The identifiers a run drew from [uuidv4()], in order. *)
Definition drawn (t : list Event) : list string :=
  flat_map (fun ev =>
              match ev with
              | mkEvent uuidv4 u => [u]
              | _ => []
              end) t.

(** A character that is neither a dot nor a slash. *)
Definition plain (c : ascii) : Prop :=
  path.is_dot c = false /\ path.is_slash c = false.

(** The characters of [chars] from index [lo] up to, not including,
    index [hi] are all plain. *)
Definition plain_between (chars : list ascii) (lo hi : nat) : Prop :=
  forall j c, lo <= j < hi -> nth_error chars j = Some c -> plain c.

(** The state of the [path.extname] scanner when the characters of
    [chars] at [k] and above are done: what lies between the recorded dot
    and the end of the extension is plain, and so is everything scanned
    below the end while no dot has been recorded. *)
Definition tidy (chars : list ascii) (k : nat) (s : path.scan) : Prop :=
  (forall sd e, path.startDot s = Some sd -> path.end_ s = Some e ->
                plain_between chars (S sd) e)
  /\ (path.stopped s = false -> path.startDot s = None ->
      forall e, path.end_ s = Some e -> plain_between chars k e)
  /\ (path.startDot s <> None -> path.end_ s <> None)
  /\ (path.stopped s = false -> path.end_ s <> None ->
      path.matchedSlash s = false).

(** A second file, with the extension of [cat]. *)
Definition dog : File :=
  {| originalname := "dog.png"; mimetype := "image/png";
     buffer := [Byte.x01; Byte.x02] |}.

(* ================================================================== *)
(** ** Proof tactics *)
(* ================================================================== *)

Arguments path.extname : simpl never.
Arguments Date.toISOString : simpl never.
Arguments Date.digit : simpl never.
Arguments Date.between : simpl never.
Arguments Date.is_digit : simpl never.
Arguments by_id : simpl never.
Arguments profile_doc : simpl never.

(** Name the answer of the next call of the run in the goal. *)
Ltac next_call :=
  match goal with
  | |- context [respond ?env ?c ?w] =>
      let x := fresh "x" in
      let w' := fresh "w" in
      let E := fresh "E" in
      destruct (respond env c w) as [x w'] eqn:E; cbn in x; cbn
  end.

(** Destruct the answers of the calls of a run, one after the other. *)
Ltac answers :=
  repeat (next_call;
          repeat match goal with
                 | x : Outcome _ |- _ => destruct x
                 | x : unit |- _ => destruct x
                 end;
          cbn).

(** Split the goal on the integer tests of its conditionals, dropping
    the impossible cases. *)
Ltac split_ifs :=
  repeat match goal with
         | |- context [if (?x =? ?y)%Z then _ else _] =>
             destruct (Z.eqb_spec x y); try lia
         end.

(** Point at the cause of a 500 in a run that is written out. *)
Ltac find_cause :=
  intros; eexists; split; [reflexivity | ];
  first
    [ match goal with
      | |- context [mkEvent ?c (Rejected ?e)] =>
          left; exists (mkEvent c (Rejected e));
          split; [simpl; tauto | reflexivity]
      end
    | right; eexists; split; [reflexivity | split; [ | reflexivity]];
      intros [U N]; first [now apply U | now apply N] ].

(** Close the parts of [shape] on a run that is written out. *)
Ltac finish_shape :=
  cbn; repeat match goal with |- _ /\ _ => split end;
  try solve [ simpl; tauto
            | reflexivity
            | simpl; lia
            | intros X; discriminate X
            | intros X; now elim X
            | intros _; eexists; reflexivity
            | find_cause ].

(* ================================================================== *)
(** * Properties *)
(* ================================================================== *)

(** ** Truthiness *)

Lemma is_undefined_iff (v : value) : is_undefined v = true <-> v = JsUndefined.
Proof.
  destruct v; simpl; split; intros H; try reflexivity; discriminate H.
Qed.

Lemma is_undefined_false (v : value) :
  v <> JsUndefined -> is_undefined v = false.
Proof.
  intros H. destruct v; try reflexivity. now elim H.
Qed.

Lemma destructure_body_ok (body : value) :
  destructurable body ->
  destructure_body body =
  ret (GetV body "name", GetV body "age", GetV body "bio",
       GetV body "imageUrl").
Proof.
  intros [H1 H2]. destruct body; try reflexivity; [now elim H1 | now elim H2].
Qed.

Lemma post_api_profiles_missing (body : value) :
  destructurable body -> missing_fields body = true ->
  post_api_profiles body =
  ret (send 400 "Missing fields: name, age, bio, imageUrl are required.").
Proof.
  intros Hb Hm. unfold post_api_profiles.
  rewrite (destructure_body_ok body Hb). cbn.
  unfold missing_fields in Hm. rewrite Hm. reflexivity.
Qed.

(** ** The library models on examples *)

Example extname_png : path.extname "photo.png" = ".png".
Proof. reflexivity. Qed.

Example extname_last_dot : path.extname "index.coffee.md" = ".md".
Proof. reflexivity. Qed.

Example extname_none : path.extname "README" = "".
Proof. reflexivity. Qed.

Example extname_hidden : path.extname ".bashrc" = "".
Proof. reflexivity. Qed.

Example extname_trailing_dot : path.extname "index." = ".".
Proof. reflexivity. Qed.

Example extname_dotdot : path.extname ".." = "".
Proof. reflexivity. Qed.

Example extname_dir : path.extname "a.b/photo" = "".
Proof. reflexivity. Qed.

Example extname_trailing_slash : path.extname "shots/cat.jpeg/" = ".jpeg".
Proof. reflexivity. Qed.

Example iso_epoch : Date.toISOString 0 = "1970-01-01T00:00:00.000Z".
Proof. reflexivity. Qed.
Example iso_1 : Date.toISOString 1700000000000 = "2023-11-14T22:13:20.000Z".
Proof. reflexivity. Qed.
Example iso_2 : Date.toISOString 951782400000 = "2000-02-29T00:00:00.000Z".
Proof. reflexivity. Qed.
Example iso_3 : Date.toISOString (-1) = "1969-12-31T23:59:59.999Z".
Proof. reflexivity. Qed.
Example iso_4 : Date.toISOString 1709251199999 = "2024-02-29T23:59:59.999Z".
Proof. reflexivity. Qed.
Example iso_5 : Date.toISOString 253402300800000 = "+010000-01-01T00:00:00.000Z".
Proof. reflexivity. Qed.
Example iso_6 : Date.toISOString (-62198755200000) = "-000001-01-01T00:00:00.000Z".
Proof. reflexivity. Qed.
Example iso_7 : Date.toISOString 1798761599000 = "2026-12-31T23:59:59.000Z".
Proof. reflexivity. Qed.

(** ** [path.extname] gives nothing, or a dot and what follows it *)

Section Extname.

Variable chars : list ascii.

Lemma scanned_step (i : nat) (c : ascii) (s : path.scan) :
  nth_error chars i = Some c ->
  scanned chars (S i) s -> scanned chars i (path.step i c s).
Proof.
  intros Hc [He Hd].
  assert (Hi : i < List.length chars).
  { apply nth_error_Some. rewrite Hc. discriminate. }
  assert (Dot : path.is_dot c = true -> nth_error chars i = Some "."%char).
  { intros D. apply Ascii.eqb_eq in D. rewrite <- D. exact Hc. }
  destruct s as [sd sp e ms pds st]. unfold path.step. simpl in *.
  destruct st, (path.is_slash c), ms, e as [e | ], (path.is_dot c),
    sd as [sd | ];
    simpl; split; simpl;
    try (intros x H; try discriminate H; try (injection H as <-);
         try (specialize (He _ eq_refl)); try lia);
    try (destruct (Hd _ eq_refl) as (Hn & e0 & He0 & Hlt);
         try discriminate He0; try (injection He0 as <-));
    try (split; [auto | eexists; split; [reflexivity | lia]]).
Qed.

Lemma scanned_loop (n : nat) (s : path.scan) :
  n <= List.length chars ->
  scanned chars n s -> scanned chars 0 (path.loop (rev (firstn n chars)) n s).
Proof.
  revert s. induction n as [ | i IH]; intros s Hn Hs.
  - simpl. exact Hs.
  - assert (Hi : i < List.length chars) by lia.
    destruct (nth_error chars i) as [c | ] eqn:Hc;
      [ | apply nth_error_None in Hc; lia].
    assert (F : firstn (S i) chars = (firstn i chars ++ [c])%list).
    { clear - Hc. revert i Hc. induction chars as [ | a l IHl]; intros i Hc.
      - destruct i; discriminate Hc.
      - destruct i as [ | i]; simpl in *.
        + inversion Hc; reflexivity.
        + rewrite (IHl i Hc). reflexivity. }
    rewrite F, rev_app_distr. simpl.
    apply IH; [lia | ]. apply scanned_step; assumption.
Qed.

End Extname.

Lemma substring_at (p : string) (sd k : nat) (c : ascii) :
  nth_error (list_ascii_of_string p) sd = Some c ->
  exists rest, substring sd (S k) p = String c rest.
Proof.
  revert sd. induction p as [ | a p IH]; intros sd H.
  - destruct sd; discriminate H.
  - destruct sd as [ | sd]; simpl in *.
    + injection H as ->. eexists. reflexivity.
    + exact (IH sd H).
Qed.

Lemma length_list_ascii (p : string) :
  List.length (list_ascii_of_string p) = String.length p.
Proof.
  induction p as [ | a p IH]; simpl; [reflexivity | now rewrite IH].
Qed.

Lemma extname_dot (p : string) :
  path.extname p = "" \/ exists rest, path.extname p = String "." rest.
Proof.
  unfold path.extname.
  set (chars := list_ascii_of_string p).
  assert (S0 : scanned chars (String.length p) path.scan0).
  { split; simpl; intros x H; discriminate H. }
  assert (L : String.length p = List.length chars)
    by (symmetry; apply length_list_ascii).
  assert (F : chars = firstn (String.length p) chars)
    by (rewrite L, firstn_all; reflexivity).
  pose proof (scanned_loop chars (String.length p) path.scan0
                (Nat.eq_le_incl _ _ L) S0) as H.
  rewrite <- F in H. destruct H as [_ Hd]. cbv zeta.
  destruct (path.startDot _) as [sd | ] eqn:SD; [ | left; reflexivity].
  destruct (Hd sd eq_refl) as (Hn & e & He & Hlt).
  rewrite He.
  match goal with
  | |- context [if ?b then _ else _] => destruct b
  end; [left; reflexivity | right].
  unfold path.slice.
  replace (e - sd) with (S (e - sd - 1)) by lia.
  exact (substring_at p sd _ _ Hn).
Qed.

(** ** [toISOString] renders an ISO-8601 timestamp *)

Section Timestamp.

Local Open Scope Z_scope.

Lemma digit_cases (n : Z) :
  exists k : nat, (k < 10)%nat /\ Date.digit n = ascii_of_nat (48 + k) /\ k = Z.to_nat (n mod 10).
Proof.
  exists (Z.to_nat (n mod 10)). repeat split.
  assert (0 <= n mod 10 < 10) by (apply Z.mod_pos_bound; lia). lia.
Qed.

Lemma is_digit_digit (n : Z) : Date.is_digit (Date.digit n) = true.
Proof.
  destruct (digit_cases n) as (k & Hk & -> & _).
  do 10 (destruct k as [ | k]; [reflexivity | ]). lia.
Qed.

Lemma digit_value_digit (n : Z) :
  Date.digit_value (Date.digit n) = Z.to_nat (n mod 10).
Proof.
  destruct (digit_cases n) as (k & Hk & -> & <-).
  do 10 (destruct k as [ | k]; [reflexivity | ]). lia.
Qed.

Lemma two_digits (n : Z) :
  0 <= n < 100 -> Date.two (Date.digit (n / 10)) (Date.digit n) = Z.to_nat n.
Proof.
  intros H. unfold Date.two. rewrite !digit_value_digit.
  Z.div_mod_to_equations. lia.
Qed.

Lemma between_digits (lo hi : nat) (n : Z) :
  Z.of_nat lo <= n <= Z.of_nat hi -> n < 100 ->
  Date.between lo hi (Date.digit (n / 10)) (Date.digit n) = true.
Proof.
  intros H1 H2. unfold Date.between.
  rewrite !is_digit_digit, two_digits by lia. simpl.
  apply andb_true_iff. split; apply Nat.leb_le; lia.
Qed.

Lemma leap_cases (y : Z) :
  (Date.InLeapYear y = true /\ (y mod 4 = 0 /\ (y mod 100 <> 0 \/ y mod 400 = 0)))
  \/ (Date.InLeapYear y = false /\ (y mod 4 <> 0 \/ (y mod 100 = 0 /\ y mod 400 <> 0))).
Proof.
  unfold Date.InLeapYear.
  destruct (y mod 4 =? 0) eqn:E4; destruct (y mod 100 =? 0) eqn:E100;
    destruct (y mod 400 =? 0) eqn:E400; simpl;
    rewrite ?Z.eqb_eq, ?Z.eqb_neq in *; intuition.
Qed.

(** [civil] gives a date of the calendar, and the one whose day number
    is [day]. *)
Lemma civil_correct (day : Z) :
  let '(y, m, d) := Date.civil day in
  1 <= m <= 12 /\ 1 <= d <= Date.DaysInMonth y m /\ Date.MakeDay y m d = day.
Proof.
  unfold Date.civil. cbv zeta.
  set (z := day + 719468).
  set (era := z / 146097).
  set (doe := z - era * 146097).
  assert (Hz : day = doe + era * 146097 - 719468) by (subst doe z; lia).
  assert (R : 0 <= doe <= 146096) by (subst doe era; Z.div_mod_to_equations; lia).
  clearbody doe. clearbody era. clear z. subst day.
  set (yoe := (doe - doe / 1460 + doe / 36524 - doe / 146096) / 365).
  assert (Ey : yoe = (doe - doe / 1460 + doe / 36524 - doe / 146096) / 365)
    by reflexivity.
  clearbody yoe.
  set (doy := doe - (365 * yoe + yoe / 4 - yoe / 100)).
  assert (Ed : doy = doe - (365 * yoe + yoe / 4 - yoe / 100)) by reflexivity.
  clearbody doy.
  assert (Hy : 0 <= yoe <= 399 /\ 0 <= doy <= 365).
  { subst doy yoe. Z.div_mod_to_equations. lia. }
  set (mp := (5 * doy + 2) / 153).
  assert (Em : mp = (5 * doy + 2) / 153) by reflexivity.
  clearbody mp.
  assert (Mr : 0 <= mp <= 11).
  { subst mp. Z.div_mod_to_equations. lia. }
  set (m := if mp <? 10 then mp + 3 else mp - 9).
  assert (Hm : (mp < 10 /\ m = mp + 3) \/ (10 <= mp /\ m = mp - 9)).
  { subst m. destruct (Z.ltb_spec mp 10); lia. }
  clearbody m.
  set (c := if m <=? 2 then 1 else 0).
  assert (Hc : (m <= 2 /\ c = 1) \/ (2 < m /\ c = 0)).
  { subst c. destruct (Z.leb_spec m 2); lia. }
  clearbody c.
  set (d := doy - (153 * mp + 2) / 5 + 1).
  assert (Hd : d = doy - (153 * mp + 2) / 5 + 1) by reflexivity.
  clearbody d.
  split; [lia | ].
  unfold Date.MakeDay, Date.DayFromYear, Date.DaysBeforeMonth, Date.DaysInMonth.
  destruct (leap_cases (yoe + era * 400 + c)) as [[Hl L] | [Hl L]]; rewrite Hl.
  all: split; split_ifs; Z.div_mod_to_equations; lia.
Qed.

Lemma civil_range (day y m d : Z) :
  Date.civil day = (y, m, d) -> 1 <= m <= 12 /\ 1 <= d <= 31.
Proof.
  intros H. pose proof (civil_correct day) as C. rewrite H in C.
  destruct C as (Hm & Hd & _). split; [exact Hm | ].
  unfold Date.DaysInMonth in Hd. revert Hd.
  destruct (Date.InLeapYear y); split_ifs; lia.
Qed.

Lemma time_ranges (t : Z) :
  0 <= Date.HourFromTime t <= 23 /\ 0 <= Date.MinFromTime t <= 59
  /\ 0 <= Date.SecFromTime t <= 59.
Proof.
  unfold Date.HourFromTime, Date.MinFromTime, Date.SecFromTime.
  repeat split; Z.div_mod_to_equations; lia.
Qed.

Arguments Date.digit : simpl never.
Arguments Date.between : simpl never.
Arguments Date.is_digit : simpl never.

Lemma is_digit_sign_minus : Date.is_digit "-" = false.
Proof. reflexivity. Qed.
Lemma is_digit_sign_plus : Date.is_digit "+" = false.
Proof. reflexivity. Qed.

Lemma toISOString_is_iso8601 (t : Z) :
  Date.is_iso8601 (Date.toISOString t) = true.
Proof.
  unfold Date.toISOString.
  destruct (Date.civil (Date.Day t)) as [[y m] d] eqn:C.
  destruct (civil_range _ _ _ _ C) as [[M1 M2] [D1 D2]].
  destruct (time_ranges t) as ([H1 H2] & [N1 N2] & [S1 S2]).
  assert (Bm : Date.between 1 12 (Date.digit (m / 10)) (Date.digit m) = true)
    by (apply between_digits; simpl; lia).
  assert (Bd : Date.between 1 31 (Date.digit (d / 10)) (Date.digit d) = true)
    by (apply between_digits; simpl; lia).
  assert (Bh : Date.between 0 23 (Date.digit (Date.HourFromTime t / 10))
                 (Date.digit (Date.HourFromTime t)) = true)
    by (apply between_digits; simpl; lia).
  assert (Bn : Date.between 0 59 (Date.digit (Date.MinFromTime t / 10))
                 (Date.digit (Date.MinFromTime t)) = true)
    by (apply between_digits; simpl; lia).
  assert (Bs : Date.between 0 59 (Date.digit (Date.SecFromTime t / 10))
                 (Date.digit (Date.SecFromTime t)) = true)
    by (apply between_digits; simpl; lia).
  unfold Date.year_string.
  destruct ((0 <=? y) && (y <=? 9999)); [ | destruct (y <? 0)];
    unfold Date.is_iso8601; cbn;
    rewrite ?is_digit_sign_minus, ?is_digit_sign_plus, ?is_digit_digit;
    cbn; rewrite ?is_digit_digit, Bm, Bd, Bh, Bn, Bs; reflexivity.
Qed.

End Timestamp.

(** ** What is read from a JSON body *)

(** Induction on a value and on the values inside it. *)
Lemma value_nested_ind (P : value -> Prop) :
  P JsUndefined -> P JsNull -> (forall b, P (JsBoolean b)) ->
  (forall n, P (JsNumber n)) -> (forall s, P (JsString s)) ->
  (forall items, Forall P items -> P (JsArray items)) ->
  (forall props, Forall (fun kv => P (snd kv)) props -> P (JsObject props)) ->
  forall v, P v.
Proof.
  intros Hu Hn Hb Hm Hs Ha Ho.
  fix IH 1. intros [ | | b | n | s | items | props];
    [exact Hu | exact Hn | apply Hb | apply Hm | apply Hs | | ].
  - apply Ha.
    induction items as [ | x items IHi]; constructor; [apply IH | exact IHi].
  - apply Ho.
    induction props as [ | [k x] props IHp]; constructor;
      [apply IH | exact IHp].
Qed.

(** Only [undefined] has no JSON text. *)
Lemma no_json_iff_undefined (v : value) :
  JSON.SerializeJSONProperty v = None <-> v = JsUndefined.
Proof.
  split.
  - destruct v as [ | | b | [ | | | ] | s | items | props]; simpl;
      intros H; try discriminate H; reflexivity.
  - intros ->. reflexivity.
Qed.

(** What was read from JSON is written and read back as it is. *)
Lemma json_is_exact (v : value) :
  forall j, JSON.SerializeJSONProperty v = Some j -> JSON.exact j.
Proof.
  unfold JSON.exact.
  induction v as [ | | b | n | s | items IH | props IH]
    using value_nested_ind; intros j H; simpl in H; try discriminate H.
  - inversion H. reflexivity.
  - inversion H. reflexivity.
  - destruct n; inversion H; reflexivity.
  - inversion H. reflexivity.
  - inversion H. subst j. clear H. simpl. do 2 f_equal.
    induction IH as [ | x items Hx _ IHi]; simpl; [reflexivity | ].
    f_equal; [ | exact IHi].
    destruct (JSON.SerializeJSONProperty x) as [j | ] eqn:E;
      [rewrite (Hx j eq_refl) | ]; reflexivity.
  - inversion H. subst j. clear H. simpl. do 2 f_equal.
    induction IH as [ | [k x] props Hx _ IHp]; simpl; [reflexivity | ].
    simpl in Hx.
    destruct (JSON.SerializeJSONProperty x) as [j | ] eqn:E; simpl.
    + rewrite (Hx j eq_refl). simpl. f_equal. exact IHp.
    + exact IHp.
Qed.

(** [null], a boolean, a string and a finite number other than [-0] are
    read back as they were written. *)
Lemma scalars_are_exact (v : value) :
  json_scalar v = true -> JSON.exact v.
Proof.
  destruct v as [ | | b | [[ | ] | | | ] | s | items | props]; simpl;
    intros H; try discriminate H; reflexivity.
Qed.

Lemma json_of_object (props : list (string * value)) :
  JSON.SerializeJSONProperty (JsObject props)
  = Some (JsObject (JSON.SerializeJSONObject props)).
Proof. reflexivity. Qed.

Lemma written_cons (k : string) (x : value) (props : list (string * value)) :
  JSON.SerializeJSONObject ((k, x) :: props)
  = match JSON.SerializeJSONProperty x with
    | Some j => (k, j) :: JSON.SerializeJSONObject props
    | None => JSON.SerializeJSONObject props
    end.
Proof.
  unfold JSON.SerializeJSONObject. simpl.
  destruct (JSON.SerializeJSONProperty x); reflexivity.
Qed.

(** A property with JSON text is read back under its name. *)
Lemma lookup_written (k : string) (props : list (string * value))
  (x j : value) :
  lookup k props = Some x -> JSON.SerializeJSONProperty x = Some j ->
  lookup k (JSON.SerializeJSONObject props) = Some j.
Proof.
  intros L J. induction props as [ | [k' x'] props IH]; [discriminate L | ].
  simpl in L. rewrite written_cons.
  destruct (String.eqb k k') eqn:E.
  - injection L as ->. rewrite J. simpl. rewrite E. reflexivity.
  - destruct (JSON.SerializeJSONProperty x'); simpl; [rewrite E | ];
      exact (IH L).
Qed.

(** A name that the object does not have is not read back. *)
Lemma lookup_written_none (k : string) (props : list (string * value)) :
  ~ In k (map fst props) -> lookup k (JSON.SerializeJSONObject props) = None.
Proof.
  induction props as [ | [k' x'] props IH]; intros N; [reflexivity | ].
  simpl in N. rewrite written_cons.
  assert (E : String.eqb k k' = false).
  { apply String.eqb_neq. intros ->. apply N. left. reflexivity. }
  destruct (JSON.SerializeJSONProperty x'); simpl; [rewrite E | ];
    apply IH; tauto.
Qed.

(** Nor is a property without JSON text, when its name occurs once. *)
Lemma lookup_written_dropped (k : string) (props : list (string * value))
  (x : value) :
  NoDup (map fst props) ->
  lookup k props = Some x -> JSON.SerializeJSONProperty x = None ->
  lookup k (JSON.SerializeJSONObject props) = None.
Proof.
  intros N L J. induction props as [ | [k' x'] props IH]; [discriminate L | ].
  simpl in L, N. inversion N as [ | ? ? Hnew Hrest]; subst.
  rewrite written_cons.
  destruct (String.eqb k k') eqn:E.
  - injection L as ->. rewrite J. apply String.eqb_eq in E. subst k'.
    apply (lookup_written_none k props Hnew).
  - destruct (JSON.SerializeJSONProperty x'); simpl; [rewrite E | ];
      exact (IH Hrest L).
Qed.

Lemma lookup_in (k : string) (props : list (string * value)) :
  In k (map fst props) -> exists x, lookup k props = Some x.
Proof.
  induction props as [ | [k' x'] props IH]; intros H; [contradiction | ].
  simpl. destruct (String.eqb k k') eqn:E; [eauto | ].
  destruct H as [H | H]; [ | exact (IH H)].
  simpl in H. subst k'. rewrite String.eqb_refl in E. discriminate E.
Qed.

(** The property [k] of what is read from [v] is what is read from the
    property [k] of [v], when that one has JSON text. *)
Lemma GetV_received (v j y : value) (k : string) :
  JSON.SerializeJSONProperty v = Some j ->
  JSON.SerializeJSONProperty (GetV v k) = Some y ->
  GetV j k = y.
Proof.
  intros Hv Hk.
  destruct v as [ | | b | n | s | items | props];
    try discriminate Hk.
  rewrite json_of_object in Hv. injection Hv as <-.
  unfold GetV in *.
  destruct (lookup k props) as [x | ] eqn:L; [ | discriminate Hk].
  rewrite (lookup_written k props x y L Hk).
  reflexivity.
Qed.

(** A store that hands back the JSON form of the record it accepted
    hands back a record that extends it, as long as no property name
    occurs twice in the record. *)
Lemma json_form_extends (d j : value) :
  NoDup (keys d) -> JSON.SerializeJSONProperty d = Some j -> extends d j.
Proof.
  intros N H k Hk.
  destruct d as [ | | b | n | s | items | props]; try contradiction.
  rewrite json_of_object in H. injection H as <-.
  unfold keys in N, Hk. unfold GetV.
  destruct (lookup_in k props Hk) as [x L]. rewrite L.
  destruct (JSON.SerializeJSONProperty x) as [y | ] eqn:J.
  - rewrite (lookup_written k props x y L J).
    apply (json_is_exact x y J).
  - rewrite (lookup_written_dropped k props x N L J). reflexivity.
Qed.

(** Where [r] extends [d], a property of [d] that has JSON text is read
    from [r] as it is read from [d]. *)
Lemma extends_received (d r jd jr : value) (k : string) :
  extends d r -> In k (keys d) -> GetV d k <> JsUndefined ->
  JSON.SerializeJSONProperty d = Some jd ->
  JSON.SerializeJSONProperty r = Some jr ->
  JSON.SerializeJSONProperty (GetV d k) = Some (GetV jr k)
  /\ GetV jr k = GetV jd k.
Proof.
  intros X Hk Hu Hd Hr.
  destruct (JSON.SerializeJSONProperty (GetV d k)) as [y | ] eqn:J.
  - pose proof (X k Hk) as Xk. rewrite J in Xk.
    rewrite (GetV_received r jr y k Hr Xk), (GetV_received d jd y k Hd J).
    split; reflexivity.
  - apply no_json_iff_undefined in J. elim (Hu J).
Qed.

(** ** Lookup by id (GET /api/profiles/:id) *)

Section Lookup.

Context {W : Type} (env : Env W).

(** The run of the lookup when the store serves the query. *)
Lemma run_lookup (id : string) (w w1 : W)
  (resources : option (list value)) :
  respond env (items_query_fetchAll (by_id id)) w = (Resolved resources, w1) ->
  run env (get_api_profiles_id id) w =
  (Resolved
     match resources with
     | None | Some [] => send 404 "Not found"
     | Some (first :: _) => json 200 first
     end,
   w1,
   [mkEvent (items_query_fetchAll (by_id id)) (Resolved resources)]).
Proof.
  intros E. unfold get_api_profiles_id, by_id in *. cbn. rewrite E. cbn.
  destruct resources as [[ | first rest] | ]; reflexivity.
Qed.

(** C4.  The lookup hands the store the query
    [SELECT * FROM c WHERE c.id = @id] with the path parameter bound to
    [@id], and nothing else; when the store answers with no resources or
    an empty list the response is 404 "Not found", and when it answers
    with one or more records the response is 200 with the first one as
    JSON. *)
Theorem lookup_first_match_or_404 (id : string) (w w1 : W)
  (resources : option (list value)) :
  respond env (items_query_fetchAll (by_id id)) w = (Resolved resources, w1) ->
  query (by_id id) = "SELECT * FROM c WHERE c.id = @id"
  /\ parameters (by_id id) = [("@id", JsString id)]
  /\ run env (get_api_profiles_id id) w =
     (Resolved
        match resources with
        | None | Some [] => send 404 "Not found"
        | Some (first :: _) => json 200 first
        end,
      w1,
      [mkEvent (items_query_fetchAll (by_id id)) (Resolved resources)]).
Proof.
  intros E. split; [reflexivity | split; [reflexivity | ]].
  unfold get_api_profiles_id, by_id in *. cbn. rewrite E. cbn.
  destruct resources as [[ | first rest] | ]; reflexivity.
Qed.

End Lookup.

(** ** Validation of a new profile (POST /api/profiles) *)

Section Validation.

Context {W : Type} (env : Env W).


End Validation.

(** ** Upload without a file (POST /api/upload) *)

Section NoFile.

Context {W : Type} (env : Env W).

(** With [req.file] absent the handler answers 400 without any call. *)
Lemma post_api_upload_none (w : W) :
  run env (post_api_upload None) w =
  (Resolved (send 400 "No file uploaded. Field name must be 'photo'."), w, []).
Proof. reflexivity. Qed.

(** The same through the route: a request without a file part under
    [photo] reaches the handler with no file. *)
Lemma no_file_rejected_at_route (req : UploadRequest) (w : W) :
  photo req = None ->
  run env (route_post_api_upload req) w =
  (inr (Resolved (send 400 "No file uploaded. Field name must be 'photo'.")),
   w, []).
Proof.
  intros H. unfold route_post_api_upload, single. rewrite H. reflexivity.
Qed.



(** On a request that carries at most one file, under [photo], multer's
    middleware does what section 4.2 of the specification says. *)
Lemma single_on_file_parts (req : UploadRequest) :
  (forall f, photo req = Some f -> originalname f <> "") ->
  upload_single_photo (file_parts req) = single upload req.
Proof.
  intros H. unfold upload_single_photo, file_parts, single.
  destruct (photo req) as [f | ]; [ | reflexivity].
  unfold makeMiddleware, over_limit. cbv [part fieldname].
  destruct (originalname f) eqn:N; [elim (H f eq_refl); exact N | ].
  change (filesLeft_single "photo" "photo") with 1.
  destruct (limits_fileSize upload <? Z.of_nat (List.length (buffer f)))%Z;
    reflexivity.
Qed.

End NoFile.

(** ** Store failures *)

Lemma handled_at (msg : string) (out : Outcome Response)
  (pre post : list Event) (ev : Event) (e : Exn) :
  handled msg out (pre ++ ev :: post) ->
  rejection ev = Some e ->
  out = Resolved (send 500 msg) /\ post = [mkEvent (console_error e) tt].
Proof.
  induction pre as [ | ev' pre IH]; simpl; intros [H1 H2] R.
  - rewrite R in H1. exact H1.
  - exact (IH H2 R).
Qed.

Section Failures.

Context {W : Type} (env : Env W).

Lemma upload_handled (file : option File) (w : W) :
  handled "Upload failed."
    (fst (fst (run env (post_api_upload file) w)))
    (snd (run env (post_api_upload file) w)).
Proof.
  unfold post_api_upload. destruct file as [f | ]; cbn; [ | exact I].
  answers; intuition.
Qed.

Lemma profiles_handled (body : value) (w : W) :
  handled "Create profile failed."
    (fst (fst (run env (post_api_profiles body) w)))
    (snd (run env (post_api_profiles body) w)).
Proof.
  unfold post_api_profiles.
  destruct body; cbn;
    try (match goal with
         | |- context [if ?b then _ else _] => destruct b
         end; cbn);
    answers; intuition.
Qed.

Lemma lookup_handled (id : string) (w : W) :
  handled "Read profile failed."
    (fst (fst (run env (get_api_profiles_id id) w)))
    (snd (run env (get_api_profiles_id id) w)).
Proof.
  unfold get_api_profiles_id. cbn. next_call.
  destruct x as [[[ | first rest] | ] | e]; cbn; answers; intuition.
Qed.

(** C7.  On each of the three endpoints, when a call of the run was
    rejected by the object store or the document store, the response is
    500 with the fixed text of the endpoint, which does not depend on the
    error; the only call after the rejected one is the [console.error] of
    the error, so no store call follows it and the call is not tried
    again. *)
Theorem store_failure_is_500 (r : Request) (w : W) (pre post : list Event)
  (ev : Event) (e : Exn) :
  snd (run env (handler r) w) = pre ++ ev :: post ->
  rejection ev = Some e ->
  fst (fst (run env (handler r) w)) = Resolved (send 500 (failure_text r))
  /\ post = [mkEvent (console_error e) tt]
  /\ store_calls post = [].
Proof.
  intros Ht Hr.
  assert (H : handled (failure_text r)
                (fst (fst (run env (handler r) w)))
                (snd (run env (handler r) w))).
  { destruct r as [file | body | id]; simpl handler; simpl failure_text.
    - apply upload_handled.
    - apply profiles_handled.
    - apply lookup_handled. }
  rewrite Ht in H.
  destruct (handled_at _ _ _ _ _ _ H Hr) as [H1 H2].
  split; [exact H1 | split; [exact H2 | ]].
  rewrite H2. reflexivity.
Qed.

End Failures.

(** ** Successful uploads (POST /api/upload) *)

Lemma str_or_nonempty (a b : string) : a <> "" -> str_or a b = a.
Proof.
  intros H. destruct a as [ | c a]; [now elim H | reflexivity].
Qed.

Section Upload.

Context {W : Type} (env : Env W).

(** C5.  When the upload handler answers 200, the request carried a
    file, and the run was exactly: the container check, one [uuidv4()]
    call, the blob client for the name made of that identifier followed
    by the extension of the original file name ([".jpg"] when
    [path.extname] finds none; a dot and what follows it in either case),
    and one write of the file's bytes under that name with the file's
    MIME type as content type; the response is the JSON object whose only
    property [imageUrl] is that client's URL. *)
Theorem upload_success (file : option File) (w w' : W) (r : Response)
  (t : list Event) :
  run env (post_api_upload file) w = (Resolved r, w', t) ->
  status r = 200%Z ->
  exists (f : File) (u url blobName : string),
    file = Some f
    /\ (path.extname (originalname f) = "" -> blobName = (u ++ ".jpg")%string)
    /\ (path.extname (originalname f) <> "" ->
        blobName = (u ++ path.extname (originalname f))%string)
    /\ t = [mkEvent createIfNotExists (Resolved tt);
            mkEvent uuidv4 u;
            mkEvent (getBlockBlobClient blobName) url;
            mkEvent (uploadData blobName (buffer f) (mimetype f))
                    (Resolved tt)]
    /\ r = json 200 (JsObject [("imageUrl", JsString url)])
    /\ exists rest, blobName = (u ++ String "." rest)%string.
Proof.
  unfold post_api_upload. destruct file as [f | ]; cbn.
  - answers; intros H S; inversion H; subst; try discriminate S.
    match goal with
    | |- context [mkEvent uuidv4 ?u :: mkEvent (getBlockBlobClient ?n) ?url :: _] =>
        exists f, u, url, n
    end.
    split; [reflexivity | ].
    split; [intros X; rewrite X; reflexivity | ].
    split; [intros X; rewrite (str_or_nonempty _ _ X); reflexivity | ].
    split; [reflexivity | split; [reflexivity | ]].
    destruct (extname_dot (originalname f)) as [X | [rest X]]; rewrite X.
    + exists "jpg". reflexivity.
    + exists rest. reflexivity.
  - intros H S. inversion H; subst. discriminate S.
Qed.

End Upload.

(** ** Creating a profile (POST /api/profiles) *)

Lemma all_fields_not_missing (body : value) :
  all_fields body -> missing_fields body = false.
Proof.
  intros (Hn & Ha & Hb & Hi). unfold missing_fields.
  rewrite Hn, Hb, Hi, (is_undefined_false _ Ha). reflexivity.
Qed.

Lemma all_fields_destructurable (body : value) :
  all_fields body -> destructurable body.
Proof.
  intros (Hn & _). split; intros ->; discriminate Hn.
Qed.

Section Create.

Context {W : Type} (env : Env W).

(** The run of the handler on a body with all four fields: one
    [uuidv4()], one [new Date()], one [items.create] of the composed
    record, then 201 with the record, or the [catch] block. *)
Lemma run_create (body : value) (w w1 w2 w3 : W) (id : string) (now : Z)
  (a : Outcome unit) :
  destructurable body -> all_fields body ->
  respond env uuidv4 w = (id, w1) ->
  respond env new_Date w1 = (now, w2) ->
  respond env (items_create (new_profile body id now)) w2 = (a, w3) ->
  run env (post_api_profiles body) w =
  match a with
  | Resolved _ =>
      (Resolved (json 201 (new_profile body id now)), w3,
       [mkEvent uuidv4 id; mkEvent new_Date now;
        mkEvent (items_create (new_profile body id now)) a])
  | Rejected err =>
      (Resolved (send 500 "Create profile failed."),
       snd (respond env (console_error err) w3),
       [mkEvent uuidv4 id; mkEvent new_Date now;
        mkEvent (items_create (new_profile body id now)) a;
        mkEvent (console_error err) tt])
  end.
Proof.
  intros Hb Hf E1 E2 E3. unfold post_api_profiles.
  rewrite (destructure_body_ok body Hb). cbn.
  fold (missing_fields body). rewrite (all_fields_not_missing body Hf). cbn.
  rewrite E1. cbn. rewrite E2. cbn.
  unfold new_profile in E3. rewrite E3.
  destruct a as [u | err]; cbn; [reflexivity | ].
  destruct (respond env (console_error err) w3) as [[] w4]. reflexivity.
Qed.

(** C2.  For a body with all four fields, the handler draws an
    identifier from [uuidv4()], reads the clock and renders it with
    [toISOString], which gives an ISO-8601 timestamp, hands the store the
    record composed of the identifier, the four submitted fields and that
    timestamp, and, the store having accepted it, answers 201 with the
    same record as JSON. *)
Theorem create_profile_success (body : value) (w w1 w2 w3 : W) (id : string)
  (now : Z) :
  all_fields body ->
  respond env uuidv4 w = (id, w1) ->
  respond env new_Date w1 = (now, w2) ->
  respond env (items_create (new_profile body id now)) w2 = (Resolved tt, w3) ->
  run env (post_api_profiles body) w =
  (Resolved (json 201 (new_profile body id now)), w3,
   [mkEvent uuidv4 id; mkEvent new_Date now;
    mkEvent (items_create (new_profile body id now)) (Resolved tt)])
  /\ GetV (new_profile body id now) "id" = JsString id
  /\ GetV (new_profile body id now) "createdAt"
     = JsString (Date.toISOString now)
  /\ Date.is_iso8601 (Date.toISOString now) = true.
Proof.
  intros Hf E1 E2 E3.
  pose proof (all_fields_destructurable body Hf) as Hb.
  rewrite (run_create body w w1 w2 w3 id now (Resolved tt) Hb Hf E1 E2 E3).
  split; [reflexivity | split; [reflexivity | split; [reflexivity | ]]].
  apply toISOString_is_iso8601.
Qed.

End Create.

Lemma not_missing_all_fields (body : value) :
  missing_fields body = false -> all_fields body.
Proof.
  unfold missing_fields, all_fields. intros H.
  apply orb_false_iff in H. destruct H as [H Hi].
  apply orb_false_iff in H. destruct H as [H Hb].
  apply orb_false_iff in H. destruct H as [Hn Ha].
  apply negb_false_iff in Hn, Hb, Hi.
  repeat split; try assumption.
  intros X. rewrite X in Ha. discriminate Ha.
Qed.

Section CreateCases.

Context {W : Type} (env : Env W).

(** The three ways a run of the create handler can go. *)
Lemma profiles_cases (body : value) (w : W) :
  (exists err w1,
     run env (post_api_profiles body) w =
     (Resolved (send 500 "Create profile failed."), w1,
      [mkEvent (console_error err) tt]))
  \/ run env (post_api_profiles body) w =
     (Resolved (send 400 "Missing fields: name, age, bio, imageUrl are required."),
      w, [])
  \/ (exists id w1 now w2 a w3,
        destructurable body /\ all_fields body
        /\ respond env uuidv4 w = (id, w1)
        /\ respond env new_Date w1 = (now, w2)
        /\ respond env (items_create (new_profile body id now)) w2 = (a, w3)).
Proof.
  assert (D : destructurable body \/ body = JsUndefined \/ body = JsNull).
  { destruct body; try (left; split; discriminate); auto. }
  destruct D as [D | D].
  - destruct (missing_fields body) eqn:M.
    + right; left. rewrite (post_api_profiles_missing body D M). reflexivity.
    + right; right.
      destruct (respond env uuidv4 w) as [id w1] eqn:E1.
      destruct (respond env new_Date w1) as [now w2] eqn:E2.
      destruct (respond env (items_create (new_profile body id now)) w2)
        as [a w3] eqn:E3.
      exists id, w1, now, w2, a, w3.
      auto using not_missing_all_fields.
  - left.
    destruct D as [-> | ->]; cbn;
      match goal with
      | |- context [respond env (console_error ?e) w] =>
          destruct (respond env (console_error e) w) as [[] w1]; exists e, w1
      end; reflexivity.
Qed.

(** C9.  Whatever the body holds, a record handed to the store, and the
    record of a 201 response, is the object with exactly the properties
    [id], [name], [age], [bio], [imageUrl], [createdAt], in which [id] is
    the answer of the [uuidv4()] call of this run, [createdAt] is the
    rendering of the clock reading of this run, and the other four are
    the four fields read from the body; an [id], a [createdAt] or any
    other property of the body has no part in it. *)
Theorem record_is_server_made (body : value) (w w' : W)
  (out : Outcome Response) (t : list Event) (doc : value) :
  run env (post_api_profiles body) w = (out, w', t) ->
  In (items_create doc) (map call t) \/ out = Resolved (json 201 doc) ->
  exists (id : string) (now : Z),
    In (mkEvent uuidv4 id) t
    /\ In (mkEvent new_Date now) t
    /\ doc = JsObject [("id", JsString id);
                       ("name", GetV body "name");
                       ("age", GetV body "age");
                       ("bio", GetV body "bio");
                       ("imageUrl", GetV body "imageUrl");
                       ("createdAt", JsString (Date.toISOString now))]
    /\ keys doc = ["id"; "name"; "age"; "bio"; "imageUrl"; "createdAt"].
Proof.
  intros R H.
  destruct (profiles_cases body w)
    as [(err & w1 & C) | [C | (id & w1 & now & w2 & a & w3 & D & F & E1 & E2 & E3)]].
  - rewrite C in R. inversion R; subst. simpl in H.
    destruct H as [[H | []] | H]; discriminate H.
  - rewrite C in R. inversion R; subst. simpl in H.
    destruct H as [[] | H]; discriminate H.
  - rewrite (run_create env body w w1 w2 w3 id now a D F E1 E2 E3) in R.
    exists id, now.
    assert (Hd : doc = new_profile body id now).
    { destruct a as [u | err]; inversion R; subst; simpl in H;
        destruct H as [H | H]; try discriminate H;
        repeat (destruct H as [H | H]; try discriminate H);
        try contradiction; inversion H; reflexivity. }
    destruct a as [u | err]; inversion R; subst; simpl;
      repeat split; auto.
Qed.

End CreateCases.

(** Two bodies with the same [name], [age], [bio] and [imageUrl] are
    handled in the same way, whatever else they carry. *)
Lemma other_properties_ignored (p q : list (string * value)) :
  (forall k, In k ["name"; "age"; "bio"; "imageUrl"] ->
             lookup k p = lookup k q) ->
  post_api_profiles (JsObject p) = post_api_profiles (JsObject q).
Proof.
  intros H. unfold post_api_profiles, destructure_body, GetV.
  rewrite (H "name"), (H "age"), (H "bio"), (H "imageUrl");
    simpl; tauto.
Qed.

Example mallory_is_handled_as_without_extras :
  post_api_profiles mallory
  = post_api_profiles
      (JsObject [("name", JsString "Mal"); ("age", JsNull);
                 ("bio", JsString "x"); ("imageUrl", JsString "u")]).
Proof.
  apply other_properties_ignored. intros k H. simpl in H.
  destruct H as [<- | [<- | [<- | [<- | []]]]]; reflexivity.
Qed.

Section Age.

Context {W : Type} (env : Env W).

(** The record composed for a body, as a client reads it. *)
Lemma new_profile_received (body : value) (id : string) (now : Z) :
  exists read,
    received (json 201 (new_profile body id now)) = Some read
    /\ forall k y,
         JSON.SerializeJSONProperty (GetV (new_profile body id now) k) = Some y ->
         GetV read k = y.
Proof.
  unfold received, json, payload.
  destruct (JSON.SerializeJSONProperty (new_profile body id now))
    as [read | ] eqn:J; [ | discriminate J].
  exists read. split; [reflexivity | ].
  intros k y. apply GetV_received. exact J.
Qed.

(** C10.  Whatever [age] is, short of [undefined], a body whose [name],
    [bio] and [imageUrl] are truthy passes the check: the response is not
    the 400 one, the record handed to the store carries [age] as it was
    submitted, and the 201 response that follows the store's acceptance
    carries that same record.  What a client reads from the response is
    the JSON form of [age]: [age] itself when JSON carries it as it is. *)
Theorem any_age_accepted_as_json (body age : value) (w : W) :
  ToBoolean (GetV body "name") = true ->
  ToBoolean (GetV body "bio") = true ->
  ToBoolean (GetV body "imageUrl") = true ->
  GetV body "age" = age ->
  age <> JsUndefined ->
  exists (r : Response) (doc : value) (a : Outcome unit) (e1 e2 : Event)
         (rest : list Event),
    fst (fst (run env (post_api_profiles body) w)) = Resolved r
    /\ status r <> 400%Z
    /\ snd (run env (post_api_profiles body) w)
       = e1 :: e2 :: mkEvent (items_create doc) a :: rest
    /\ GetV doc "age" = age
    /\ (a = Resolved tt ->
        r = json 201 doc
        /\ exists read,
             received r = Some read
             /\ JSON.SerializeJSONProperty age = Some (GetV read "age")
             /\ (JSON.exact age -> GetV read "age" = age)
             /\ (json_scalar age = true -> GetV read "age" = age)).
Proof.
  intros Hn Hb Hi Ha Hu.
  assert (F : all_fields body).
  { unfold all_fields. rewrite Ha. auto. }
  pose proof (all_fields_destructurable body F) as D.
  destruct (respond env uuidv4 w) as [id w1] eqn:E1.
  destruct (respond env new_Date w1) as [now w2] eqn:E2.
  destruct (respond env (items_create (new_profile body id now)) w2)
    as [a w3] eqn:E3.
  rewrite (run_create env body w w1 w2 w3 id now a D F E1 E2 E3).
  destruct a as [[] | err]; simpl.
  - exists (json 201 (new_profile body id now)), (new_profile body id now),
      (Resolved tt), (mkEvent uuidv4 id), (mkEvent new_Date now), [].
    split; [reflexivity | split; [discriminate | ]].
    split; [reflexivity | split; [exact Ha | ]].
    intros _. split; [reflexivity | ].
    destruct (new_profile_received body id now) as (read & R & G).
    exists read. split; [exact R | ].
    assert (A : GetV (new_profile body id now) "age" = age) by exact Ha.
    destruct (JSON.SerializeJSONProperty age) as [y | ] eqn:J.
    + assert (Y : GetV read "age" = y) by (apply G; rewrite A; exact J).
      rewrite Y. split; [reflexivity | ].
      assert (X : JSON.exact age -> y = age).
      { unfold JSON.exact. rewrite J. intros X. injection X as ->.
        reflexivity. }
      split; [exact X | ].
      intros S. apply X. apply scalars_are_exact. exact S.
    + apply no_json_iff_undefined in J. elim (Hu J).
  - exists (send 500 "Create profile failed."), (new_profile body id now),
      (Rejected err), (mkEvent uuidv4 id), (mkEvent new_Date now),
      [mkEvent (console_error err) tt].
    split; [reflexivity | split; [discriminate | ]].
    split; [reflexivity | split; [exact Ha | ]].
    intros X. discriminate X.
Qed.

End Age.

(** ** The size limit of the upload route *)

Section Limit.

Context {W : Type} (env : Env W).

(** C8.  The limit configured for the upload route is 4 MiB; a request
    whose file is larger is turned down by the multipart layer with
    [LIMIT_FILE_SIZE], the handler is not entered, and the run makes no
    call at all, so nothing reaches the object store. *)
Theorem oversized_upload_rejected (req : UploadRequest) (f : File) (w : W) :
  photo req = Some f ->
  (4 * 1024 * 1024 < Z.of_nat (List.length (buffer f)))%Z ->
  limits_fileSize upload = 4194304%Z
  /\ single upload req = inl LIMIT_FILE_SIZE
  /\ run env (route_post_api_upload req) w = (inl LIMIT_FILE_SIZE, w, [])
  /\ store_calls (snd (run env (route_post_api_upload req) w)) = [].
Proof.
  intros Hp Hs.
  assert (S : single upload req = inl LIMIT_FILE_SIZE).
  { unfold single. rewrite Hp.
    replace (limits_fileSize upload <? Z.of_nat (List.length (buffer f)))%Z
      with true; [reflexivity | ].
    symmetry. apply Z.ltb_lt. exact Hs. }
  split; [reflexivity | split; [exact S | ]].
  unfold route_post_api_upload. rewrite S. split; reflexivity.
Qed.

End Limit.

(** ** Create, then read *)

Section RoundTrip.

Context {W : Type} (env : Env W).

(** After a 201 the state is the one the store left when it accepted the
    composed record, all four fields were there, and a served lookup of
    the record's [id] finds a record that extends it. *)
Lemma round_trip_any_store (body : value) (w w1 : W) (r : Response)
  (t1 : list Event) :
  read_your_writes env ->
  run env (post_api_profiles body) w = (Resolved r, w1, t1) ->
  status r = 201%Z ->
  exists (id : string) (now : Z),
    r = json 201 (new_profile body id now)
    /\ all_fields body
    /\ forall resources w2,
         respond env (items_query_fetchAll (by_id id)) w1
           = (Resolved resources, w2) ->
         exists rec,
           run env (get_api_profiles_id id) w1 =
           (Resolved (json 200 rec), w2,
            [mkEvent (items_query_fetchAll (by_id id)) (Resolved resources)])
           /\ extends (new_profile body id now) rec.
Proof.
  intros store_law R S.
  destruct (profiles_cases env body w)
    as [(err & w' & C) | [C | (id & w' & now & w'' & a & w3 & D & F & E1 & E2 & E3)]].
  - rewrite C in R. inversion R; subst. discriminate S.
  - rewrite C in R. inversion R; subst. discriminate S.
  - rewrite (run_create env body w w' w'' w3 id now a D F E1 E2 E3) in R.
    destruct a as [[] | err]; inversion R; subst; [ | discriminate S].
    exists id, now. split; [reflexivity | split; [exact F | ]].
    intros resources w2 Q.
    destruct (store_law (new_profile body id now) id w'' w1 w2 resources
                eq_refl E3 Q) as (first & rest & -> & X).
    exists first. split; [ | exact X].
    exact (run_lookup env id w1 w2 _ Q).
Qed.

(** C1.  Over a document store with read-your-writes: when the create
    handler has answered 201, the client reads a record with an [id] and
    a [createdAt], and a lookup of that [id] made right after, the store
    serving it, answers 200 with a record in which the client reads, for
    [name], [age], [bio] and [imageUrl], the JSON form of what was
    submitted (the submitted value itself when JSON carries it as it is),
    the [id] and the [createdAt] of the 201 response, and in all six
    properties what it read from the 201 response. *)
Theorem create_then_read_as_json (body : value) (w w1 : W) (r : Response)
  (t1 : list Event) :
  read_your_writes env ->
  run env (post_api_profiles body) w = (Resolved r, w1, t1) ->
  status r = 201%Z ->
  exists (id createdAt : string) (created : value),
    received r = Some created
    /\ GetV created "id" = JsString id
    /\ GetV created "createdAt" = JsString createdAt
    /\ forall resources w2,
         respond env (items_query_fetchAll (by_id id)) w1
           = (Resolved resources, w2) ->
         exists (rec read : value) (t2 : list Event),
           run env (get_api_profiles_id id) w1
           = (Resolved (json 200 rec), w2, t2)
           /\ received (json 200 rec) = Some read
           /\ (forall k, In k submitted ->
                 JSON.SerializeJSONProperty (GetV body k)
                 = Some (GetV read k)
                 /\ (JSON.exact (GetV body k) -> GetV read k = GetV body k))
           /\ GetV read "id" = JsString id
           /\ GetV read "createdAt" = JsString createdAt
           /\ (forall k,
                 In k ["id"; "name"; "age"; "bio"; "imageUrl"; "createdAt"] ->
                 GetV read k = GetV created k).
Proof.
  intros L R S.
  destruct (round_trip_any_store body w w1 r t1 L R S)
    as (id & now & -> & (Fn & Fa & Fb & Fi) & G).
  set (doc := new_profile body id now) in *.
  destruct (JSON.SerializeJSONProperty doc) as [created | ] eqn:Jd;
    [ | discriminate Jd].
  exists id, (Date.toISOString now), created.
  split; [exact Jd | ].
  split; [apply (GetV_received doc created _ "id" Jd); reflexivity | ].
  split; [apply (GetV_received doc created _ "createdAt" Jd); reflexivity | ].
  intros resources w2 Q.
  destruct (G resources w2 Q) as (rec & Hrun & X).
  assert (K : forall k,
             In k ["id"; "name"; "age"; "bio"; "imageUrl"; "createdAt"] ->
             In k (keys doc) /\ GetV doc k <> JsUndefined).
  { intros k H. split; [exact H | ]. simpl in H.
    destruct H as [<- | [<- | [<- | [<- | [<- | [<- | []]]]]]];
      try discriminate.
    - intros U. change (GetV body "name" = JsUndefined) in U.
      rewrite U in Fn. discriminate Fn.
    - exact Fa.
    - intros U. change (GetV body "bio" = JsUndefined) in U.
      rewrite U in Fb. discriminate Fb.
    - intros U. change (GetV body "imageUrl" = JsUndefined) in U.
      rewrite U in Fi. discriminate Fi. }
  destruct (JSON.SerializeJSONProperty rec) as [read | ] eqn:Jr.
  - exists rec, read,
      [mkEvent (items_query_fetchAll (by_id id)) (Resolved resources)].
    split; [exact Hrun | split; [exact Jr | ]].
    assert (E : forall k,
               In k ["id"; "name"; "age"; "bio"; "imageUrl"; "createdAt"] ->
               JSON.SerializeJSONProperty (GetV doc k) = Some (GetV read k)
               /\ GetV read k = GetV created k).
    { intros k H. destruct (K k H) as [Hk Hu].
      apply (extends_received doc rec created read k X Hk Hu Jd Jr). }
    split; [ | split; [ | split]].
    + intros k H.
      assert (H6 : In k ["id"; "name"; "age"; "bio"; "imageUrl"; "createdAt"]).
      { simpl in H |- *. tauto. }
      destruct (E k H6) as [E1 _].
      assert (B : GetV doc k = GetV body k).
      { simpl in H. destruct H as [<- | [<- | [<- | [<- | []]]]];
          reflexivity. }
      rewrite B in E1. split; [exact E1 | ].
      unfold JSON.exact. rewrite E1. intros Y. injection Y as ->.
      reflexivity.
    + destruct (E "id") as [E1 _]; [simpl; tauto | ].
      change (GetV doc "id") with (JsString id) in E1.
      simpl in E1. injection E1 as <-. reflexivity.
    + destruct (E "createdAt") as [E1 _]; [simpl; tauto | ].
      change (GetV doc "createdAt") with (JsString (Date.toISOString now))
        in E1.
      simpl in E1. injection E1 as <-. reflexivity.
    + intros k H. apply (E k H).
  - apply no_json_iff_undefined in Jr. subst rec.
    pose proof (X "id" (or_introl eq_refl)) as Xi.
    discriminate Xi.
Qed.

End RoundTrip.

(** *** The reference store has read-your-writes *)

Lemma filter_none {A : Type} (p : A -> bool) (l : list A) :
  existsb p l = false -> filter p l = [].
Proof.
  induction l as [ | x l IH]; simpl; intros H; [reflexivity | ].
  apply orb_false_iff in H. destruct H as [Hx Hl].
  rewrite Hx. exact (IH Hl).
Qed.

Lemma has_id_refl (doc : value) (id : string) :
  GetV doc "id" = JsString id -> has_id id doc = true.
Proof.
  intros H. unfold has_id. rewrite H. apply String.eqb_refl.
Qed.

Lemma extends_refl (d : value) : extends d d.
Proof. intros k _. reflexivity. Qed.

Lemma documents_set_faults (w : World) (fs : list bool) :
  documents (set_faults w fs) = documents w.
Proof. reflexivity. Qed.

Lemma serve_create_resolved (doc : value) (id : string) (w w1 : World) :
  GetV doc "id" = JsString id ->
  serve (items_create doc) w = (Resolved tt, w1) ->
  existsb (has_id id) (documents w) = false
  /\ documents w1 = documents w ++ [doc].
Proof.
  intros Hid. simpl. rewrite Hid.
  destruct (existsb (has_id id) (documents w)); intros H; inversion H.
  split; reflexivity.
Qed.

Lemma serve_query (id : string) (w : World) :
  serve (items_query_fetchAll (by_id id)) w
  = (Resolved (Some (filter (has_id id) (documents w))), w).
Proof. reflexivity. Qed.

Lemma cloud_create_resolved (doc : value) (id : string) (w w1 : World) :
  GetV doc "id" = JsString id ->
  respond cloud (items_create doc) w = (Resolved tt, w1) ->
  existsb (has_id id) (documents w) = false
  /\ documents w1 = documents w ++ [doc].
Proof.
  intros Hid. simpl. unfold cloud_respond. simpl is_store_call. cbv iota.
  destruct (faults w) as [ | [ | ] rest].
  - apply serve_create_resolved. exact Hid.
  - simpl. intros H. discriminate H.
  - intros H.
    destruct (serve_create_resolved doc id _ w1 Hid H) as [H1 H2].
    rewrite documents_set_faults in H1, H2. split; assumption.
Qed.

Lemma cloud_query_resolved (id : string) (w w2 : World)
  (resources : option (list value)) :
  respond cloud (items_query_fetchAll (by_id id)) w = (Resolved resources, w2) ->
  resources = Some (filter (has_id id) (documents w)).
Proof.
  simpl. unfold cloud_respond. simpl is_store_call. cbv iota.
  destruct (faults w) as [ | [ | ] rest]; rewrite ?serve_query;
    intros H; inversion H; reflexivity.
Qed.

Lemma cloud_read_your_writes : read_your_writes cloud.
Proof.
  intros doc id w w1 w2 resources Hid C Q.
  destruct (cloud_create_resolved doc id w w1 Hid C) as [Hnew Hdocs].
  rewrite (cloud_query_resolved id w1 w2 resources Q), Hdocs.
  rewrite filter_app, (filter_none _ _ Hnew). simpl.
  rewrite (has_id_refl doc id Hid).
  exists doc, []. split; [reflexivity | apply extends_refl].
Qed.

Lemma cloud_query_served (id : string) (w : World) :
  serves_next w ->
  exists resources w2,
    respond cloud (items_query_fetchAll (by_id id)) w = (Resolved resources, w2).
Proof.
  unfold serves_next. simpl. unfold cloud_respond. simpl is_store_call.
  cbv iota. destruct (faults w) as [ | [ | ] rest]; simpl; intros H;
    try discriminate H; eauto.
Qed.

(** On the reference store, a lookup made when the store serves its next
    call finds the record just created, and only that one. *)
Lemma create_then_read_on_cloud (body : value) (w w1 : World) (r : Response)
  (t1 : list Event) :
  run cloud (post_api_profiles body) w = (Resolved r, w1, t1) ->
  status r = 201%Z ->
  serves_next w1 ->
  exists (id : string) (now : Z) (w2 : World),
    r = json 201 (new_profile body id now)
    /\ run cloud (get_api_profiles_id id) w1 =
       (Resolved (json 200 (new_profile body id now)), w2,
        [mkEvent (items_query_fetchAll (by_id id))
                 (Resolved (Some [new_profile body id now]))]).
Proof.
  intros R S N.
  destruct (profiles_cases cloud body w)
    as [(err & w' & C) | [C | (id & w' & now & w'' & a & w3 & D & F & E1 & E2 & E3)]].
  - rewrite C in R. inversion R; subst. discriminate S.
  - rewrite C in R. inversion R; subst. discriminate S.
  - rewrite (run_create cloud body w w' w'' w3 id now a D F E1 E2 E3) in R.
    destruct a as [[] | err]; inversion R; subst; [ | discriminate S].
    destruct (cloud_query_served id w1 N) as (resources & w2 & Q).
    destruct (cloud_create_resolved (new_profile body id now) id w'' w1
                eq_refl E3) as [Hnew Hdocs].
    pose proof (cloud_query_resolved id w1 w2 resources Q) as Hres.
    rewrite Hdocs, filter_app, (filter_none _ _ Hnew) in Hres.
    simpl in Hres.
    rewrite (has_id_refl (new_profile body id now) id eq_refl) in Hres.
    subst resources.
    exists id, now, w2. split; [reflexivity | ].
    exact (run_lookup cloud id w1 w2 _ Q).
Qed.

(* ================================================================== *)
(** * Concrete runs *)
(* ================================================================== *)


Lemma create_then_read_as_json_witness :
  read_your_writes cloud
  /\ run cloud (post_api_profiles ana) world0
     = (Resolved (json 201 ana_doc), world1, ana_trace)
  /\ status (json 201 ana_doc) = 201%Z
  /\ exists (id createdAt : string) (created : value),
       received (json 201 ana_doc) = Some created
       /\ GetV created "id" = JsString id
       /\ GetV created "createdAt" = JsString createdAt
       /\ forall resources w2,
            respond cloud (items_query_fetchAll (by_id id)) world1
              = (Resolved resources, w2) ->
            exists (rec read : value) (t2 : list Event),
              run cloud (get_api_profiles_id id) world1
              = (Resolved (json 200 rec), w2, t2)
              /\ received (json 200 rec) = Some read
              /\ (forall k, In k submitted ->
                    JSON.SerializeJSONProperty (GetV ana k)
                    = Some (GetV read k)
                    /\ (JSON.exact (GetV ana k) -> GetV read k = GetV ana k))
              /\ GetV read "id" = JsString id
              /\ GetV read "createdAt" = JsString createdAt
              /\ (forall k,
                    In k ["id"; "name"; "age"; "bio"; "imageUrl"; "createdAt"] ->
                    GetV read k = GetV created k).
Proof.
  split; [exact cloud_read_your_writes | ].
  split; [reflexivity | split; [reflexivity | ]].
  apply (create_then_read_as_json cloud ana world0 world1 (json 201 ana_doc)
           ana_trace cloud_read_your_writes); reflexivity.
Defined.

(** The round trip can fail.  A store that accepts the record and
    rejects the next call: the lookup that follows the 201 answers 500.
    An [age] read from [1e999]: the lookup answers 200, and the client
    reads [null] for [age]. *)
Lemma create_then_read_can_fail :
  all_fields ana
  /\ run cloud (post_api_profiles ana) flaky
     = (Resolved (json 201 ana_doc), flaky1, ana_trace)
  /\ fst (fst (run cloud (get_api_profiles_id ana_id) flaky1))
     = Resolved (send 500 "Read profile failed.")
  /\ all_fields (aged infinity)
  /\ fst (fst (run cloud (post_api_profiles (aged infinity)) world0))
     = Resolved (json 201 rich_doc)
  /\ snd (fst (run cloud (post_api_profiles (aged infinity)) world0))
     = rich_world
  /\ fst (fst (run cloud (get_api_profiles_id ana_id) rich_world))
     = Resolved (json 200 rich_doc)
  /\ received (json 200 rich_doc) = Some rich_read
  /\ GetV rich_read "age" = JsNull
  /\ GetV (aged infinity) "age" = infinity
  /\ JsNull <> infinity.
Proof.
  assert (F : forall age, age <> JsUndefined -> all_fields (aged age)).
  { intros age H. repeat split; try reflexivity. exact H. }
  split; [apply (F (JsNumber (S754_finite false 15 1))); discriminate | ].
  split; [reflexivity | split; [reflexivity | ]].
  split; [apply F; discriminate | ].
  repeat (split; [reflexivity | ]). discriminate.
Qed.

(** The round trip of the example of the specification, run. *)
Example ana_round_trip :
  run cloud (get_api_profiles_id ana_id) world1
  = (Resolved (json 200 ana_doc), world1,
     [mkEvent (items_query_fetchAll (by_id ana_id))
              (Resolved (Some [ana_doc]))])
  /\ GetV ana_doc "name" = JsString "Ana"
  /\ GetV ana_doc "age" = GetV ana "age"
  /\ GetV ana_doc "id" = JsString ana_id
  /\ GetV ana_doc "createdAt" = JsString "2023-11-14T22:13:20.000Z".
Proof. repeat split. Qed.

Lemma create_profile_success_witness :
  all_fields ana
  /\ respond cloud uuidv4 world0 = (ana_id, world0_drawn)
  /\ respond cloud new_Date world0_drawn = (1700000000000%Z, world0_drawn)
  /\ respond cloud (items_create (new_profile ana ana_id 1700000000000))
       world0_drawn = (Resolved tt, world1)
  /\ run cloud (post_api_profiles ana) world0 =
     (Resolved (json 201 (new_profile ana ana_id 1700000000000)), world1,
      [mkEvent uuidv4 ana_id; mkEvent new_Date 1700000000000%Z;
       mkEvent (items_create (new_profile ana ana_id 1700000000000))
               (Resolved tt)])
  /\ GetV (new_profile ana ana_id 1700000000000) "id" = JsString ana_id
  /\ GetV (new_profile ana ana_id 1700000000000) "createdAt"
     = JsString (Date.toISOString 1700000000000)
  /\ Date.is_iso8601 (Date.toISOString 1700000000000) = true.
Proof.
  assert (F : all_fields ana).
  { repeat split; try reflexivity. discriminate. }
  split; [exact F | ].
  split; [reflexivity | split; [reflexivity | split; [reflexivity | ]]].
  apply (create_profile_success cloud ana world0 world0_drawn world0_drawn
           world1 ana_id 1700000000000 F); reflexivity.
Defined.





(** A request without any file part, and one whose only part carries no
    file: the handler answers 400. *)
Example no_file_is_400 :
  forall parts,
    In parts [[]; [mkFilePart "photo" (mkFile "" "application/octet-stream" [])]] ->
    run cloud (app_post_api_upload parts) world0
    = (inr (Resolved (send 400 "No file uploaded. Field name must be 'photo'.")),
       world0, []).
Proof.
  intros parts [<- | [<- | []]]; reflexivity.
Qed.

(** A second file under [photo] is refused as well, and so is a file
    under another field that comes after the photo. *)
Example extra_files_are_refused :
  upload_single_photo [mkFilePart "photo" cat; mkFilePart "photo" dog]
  = inl (LIMIT_UNEXPECTED_FILE "photo")
  /\ upload_single_photo [mkFilePart "photo" cat; mkFilePart "avatar" dog]
     = inl (LIMIT_UNEXPECTED_FILE "avatar")
  /\ upload_single_photo [mkFilePart "photo" cat] = inr (Some cat).
Proof. repeat split. Qed.

Lemma lookup_first_match_or_404_witness :
  respond cloud (items_query_fetchAll (by_id ana_id)) world1
  = (Resolved (Some [ana_doc]), world1)
  /\ query (by_id ana_id) = "SELECT * FROM c WHERE c.id = @id"
  /\ parameters (by_id ana_id) = [("@id", JsString ana_id)]
  /\ run cloud (get_api_profiles_id ana_id) world1 =
     (Resolved (json 200 ana_doc), world1,
      [mkEvent (items_query_fetchAll (by_id ana_id))
               (Resolved (Some [ana_doc]))]).
Proof.
  split; [reflexivity | ].
  apply (lookup_first_match_or_404 cloud ana_id world1 world1
           (Some [ana_doc])).
  reflexivity.
Defined.

Lemma upload_success_witness :
  run cloud (post_api_upload (Some cat)) world0
  = (Resolved (json 200 (JsObject [("imageUrl", JsString cat_url)])),
     cat_world, cat_trace)
  /\ status (json 200 (JsObject [("imageUrl", JsString cat_url)])) = 200%Z
  /\ exists (f : File) (u url blobName : string),
       Some cat = Some f
       /\ (path.extname (originalname f) = "" ->
           blobName = (u ++ ".jpg")%string)
       /\ (path.extname (originalname f) <> "" ->
           blobName = (u ++ path.extname (originalname f))%string)
       /\ cat_trace =
          [mkEvent createIfNotExists (Resolved tt);
           mkEvent uuidv4 u;
           mkEvent (getBlockBlobClient blobName) url;
           mkEvent (uploadData blobName (buffer f) (mimetype f))
                   (Resolved tt)]
       /\ json 200 (JsObject [("imageUrl", JsString cat_url)])
          = json 200 (JsObject [("imageUrl", JsString url)])
       /\ exists rest, blobName = (u ++ String "." rest)%string.
Proof.
  split; [reflexivity | split; [reflexivity | ]].
  apply (upload_success cloud (Some cat) world0 cat_world
           (json 200 (JsObject [("imageUrl", JsString cat_url)])) cat_trace);
    reflexivity.
Defined.

Lemma store_failure_is_500_witness :
  snd (run cloud (handler (POST_api_upload (Some cat))) flaky)
  = [mkEvent createIfNotExists (Resolved tt);
     mkEvent uuidv4 ana_id;
     mkEvent (getBlockBlobClient cat_name) cat_url]
    ++ mkEvent (uploadData cat_name (buffer cat) (mimetype cat))
               (Rejected unavailable)
       :: [mkEvent (console_error unavailable) tt]
  /\ rejection (mkEvent (uploadData cat_name (buffer cat) (mimetype cat))
                        (Rejected unavailable)) = Some unavailable
  /\ fst (fst (run cloud (handler (POST_api_upload (Some cat))) flaky))
     = Resolved (send 500 (failure_text (POST_api_upload (Some cat))))
  /\ [mkEvent (console_error unavailable) tt]
     = [mkEvent (console_error unavailable) tt]
  /\ store_calls [mkEvent (console_error unavailable) tt] = [].
Proof.
  split; [reflexivity | split; [reflexivity | ]].
  apply (store_failure_is_500 cloud (POST_api_upload (Some cat)) flaky
           [mkEvent createIfNotExists (Resolved tt);
            mkEvent uuidv4 ana_id;
            mkEvent (getBlockBlobClient cat_name) cat_url]
           [mkEvent (console_error unavailable) tt]
           (mkEvent (uploadData cat_name (buffer cat) (mimetype cat))
                    (Rejected unavailable))
           unavailable);
    reflexivity.
Defined.

Lemma oversized_upload_rejected_witness :
  photo {| photo := Some big |} = Some big
  /\ (4 * 1024 * 1024 < Z.of_nat (List.length (buffer big)))%Z
  /\ limits_fileSize upload = 4194304%Z
  /\ single upload {| photo := Some big |} = inl LIMIT_FILE_SIZE
  /\ run cloud (route_post_api_upload {| photo := Some big |}) world0
     = (inl LIMIT_FILE_SIZE, world0, [])
  /\ store_calls
       (snd (run cloud (route_post_api_upload {| photo := Some big |}) world0))
     = [].
Proof.
  assert (B : (4 * 1024 * 1024 < Z.of_nat (List.length (buffer big)))%Z).
  { unfold big. cbv [buffer]. rewrite repeat_length, Z2Nat.id; lia. }
  split; [reflexivity | split; [exact B | ]].
  apply (oversized_upload_rejected cloud {| photo := Some big |} big world0
           eq_refl B).
Defined.

Lemma record_is_server_made_witness :
  run cloud (post_api_profiles mallory) world0
  = (Resolved (json 201 mallory_doc), mallory_world, mallory_trace)
  /\ (In (items_create mallory_doc) (map call mallory_trace)
      \/ Resolved (json 201 mallory_doc) = Resolved (json 201 mallory_doc))
  /\ exists (id : string) (now : Z),
       In (mkEvent uuidv4 id) mallory_trace
       /\ In (mkEvent new_Date now) mallory_trace
       /\ mallory_doc = JsObject [("id", JsString id);
                                  ("name", GetV mallory "name");
                                  ("age", GetV mallory "age");
                                  ("bio", GetV mallory "bio");
                                  ("imageUrl", GetV mallory "imageUrl");
                                  ("createdAt", JsString (Date.toISOString now))]
       /\ keys mallory_doc
          = ["id"; "name"; "age"; "bio"; "imageUrl"; "createdAt"].
Proof.
  split; [reflexivity | split; [right; reflexivity | ]].
  apply (record_is_server_made cloud mallory world0 mallory_world
           (Resolved (json 201 mallory_doc)) mallory_trace mallory_doc);
    [reflexivity | right; reflexivity].
Defined.

Lemma any_age_accepted_as_json_witness :
  ToBoolean (GetV mallory "name") = true
  /\ ToBoolean (GetV mallory "bio") = true
  /\ ToBoolean (GetV mallory "imageUrl") = true
  /\ GetV mallory "age" = JsNull
  /\ JsNull <> JsUndefined
  /\ exists (r : Response) (doc : value) (a : Outcome unit) (e1 e2 : Event)
            (rest : list Event),
       fst (fst (run cloud (post_api_profiles mallory) world0)) = Resolved r
       /\ status r <> 400%Z
       /\ snd (run cloud (post_api_profiles mallory) world0)
          = e1 :: e2 :: mkEvent (items_create doc) a :: rest
       /\ GetV doc "age" = JsNull
       /\ (a = Resolved tt ->
           r = json 201 doc
           /\ exists read,
                received r = Some read
                /\ JSON.SerializeJSONProperty JsNull = Some (GetV read "age")
                /\ (JSON.exact JsNull -> GetV read "age" = JsNull)
                /\ (json_scalar JsNull = true -> GetV read "age" = JsNull)).
Proof.
  assert (U : JsNull <> JsUndefined) by discriminate.
  split; [reflexivity | split; [reflexivity | split; [reflexivity | ]]].
  split; [reflexivity | split; [exact U | ]].
  apply (any_age_accepted_as_json cloud mallory JsNull world0 eq_refl eq_refl
           eq_refl eq_refl U).
Defined.

(** An [age] read from [1e999] passes the check and is handed to the
    store as it is; the client reads [null] from the 201 response. *)
Lemma infinite_age_reads_null :
  GetV (aged infinity) "age" = infinity
  /\ infinity <> JsUndefined
  /\ run cloud (post_api_profiles (aged infinity)) world0
     = (Resolved (json 201 rich_doc), rich_world,
        [mkEvent uuidv4 ana_id; mkEvent new_Date 1700000000000%Z;
         mkEvent (items_create rich_doc) (Resolved tt)])
  /\ GetV rich_doc "age" = infinity
  /\ received (json 201 rich_doc) = Some rich_read
  /\ GetV rich_read "age" = JsNull
  /\ JsNull <> infinity.
Proof.
  split; [reflexivity | split; [discriminate | ]].
  repeat (split; [reflexivity | ]). discriminate.
Qed.

(** [null], [0], [false], the empty string and a string as [age]: each
    is accepted, and the client reads it as submitted; [-0] is read as
    [0]; a falsy [name] is turned down. *)
Example listed_ages_pass :
  forall age,
    In age [JsNull; JsNumber (S754_zero false); JsBoolean false;
            JsString ""; JsString "old"] ->
    fst (fst (run cloud (post_api_profiles (aged age)) world0))
    = Resolved (json 201 (new_profile (aged age) ana_id 1700000000000))
    /\ GetV (new_profile (aged age) ana_id 1700000000000) "age" = age
    /\ exists read,
         received (json 201 (new_profile (aged age) ana_id 1700000000000))
         = Some read
         /\ GetV read "age" = age.
Proof.
  intros age H. simpl in H.
  destruct H as [<- | [<- | [<- | [<- | [<- | []]]]]];
    (split; [reflexivity | split; [reflexivity | ]]);
    eexists; split; reflexivity.
Qed.

Example negative_zero_reads_zero :
  exists read,
    received (json 201 (new_profile (aged (JsNumber (S754_zero true)))
                          ana_id 1700000000000)) = Some read
    /\ GetV read "age" = JsNumber (S754_zero false).
Proof. eexists; split; reflexivity. Qed.

Example falsy_name_fails :
  fst (fst (run cloud
              (post_api_profiles
                 (JsObject [("name", JsString ""); ("age", JsNull);
                            ("bio", JsString "hi");
                            ("imageUrl", JsString "u")])) world0))
  = Resolved (send 400 "Missing fields: name, age, bio, imageUrl are required.").
Proof. reflexivity. Qed.

(* ================================================================== *)
(** * Further properties *)
(* ================================================================== *)

(** ** The start-up check (lines 31 to 44) *)

Lemma validate_loop_lines (env : ProcessEnv) (ks : list string)
  (console : list string) :
  validate_loop env ks console
  = console ++ map missing_message (filter (env_missing env) ks).
Proof.
  revert console. induction ks as [ | k ks IH]; intros console; simpl.
  - now rewrite app_nil_r.
  - rewrite IH. destruct (env_missing env k); simpl; [ | reflexivity].
    now rewrite <- app_assoc.
Qed.

Lemma env_missing_false (env : ProcessEnv) (k : string) :
  env_missing env k = false <-> exists v, env k = Some v /\ v <> "".
Proof.
  unfold env_missing. destruct (env k) as [[ | c v] | ]; split;
    try discriminate; intros H.
  - destruct H as (v & E & N). injection E as <-. now elim N.
  - exists (String c v). split; [reflexivity | discriminate].
  - reflexivity.
  - destruct H as (v & E & _). discriminate E.
Qed.

Lemma missing_message_inj (k k' : string) :
  missing_message k = missing_message k' -> k = k'.
Proof. unfold missing_message. simpl. intros H. now inversion H. Qed.

Lemma app_same_nil {A : Type} (l l' : list A) : l ++ l' = l -> l' = [].
Proof.
  intros H. apply (f_equal (@List.length A)) in H.
  rewrite length_app in H. destruct l'; [reflexivity | simpl in H; lia].
Qed.

Lemma filter_all_false {A : Type} (p : A -> bool) (l : list A) :
  (forall x, In x l -> p x = false) -> filter p l = [].
Proof.
  induction l as [ | x l IH]; intros H; simpl; [reflexivity | ].
  rewrite (H x (or_introl eq_refl)). apply IH.
  intros y Hy. apply H. right. exact Hy.
Qed.

(** X1.  The start-up check writes nothing to the console exactly when
    each of the six required variables is set to a non-empty string. *)
Theorem validate_env_silent_iff (env : ProcessEnv) (console : list string) :
  validate_env env console = console
  <-> forall k, In k requiredEnv -> exists v, env k = Some v /\ v <> "".
Proof.
  unfold validate_env. rewrite validate_loop_lines. split.
  - intros H k Hk. apply env_missing_false.
    apply app_same_nil in H.
    destruct (env_missing env k) eqn:M; [ | reflexivity].
    assert (X : In k (filter (env_missing env) requiredEnv))
      by (apply filter_In; split; assumption).
    apply (in_map missing_message) in X. rewrite H in X. destruct X.
  - intros H. rewrite filter_all_false; [apply app_nil_r | ].
    intros k Hk. apply env_missing_false. exact (H k Hk).
Qed.

(** X2.  The start-up check keeps what was on the console and adds one
    line "Missing env var: K" for each required variable K that is unset
    or empty, in the order of [requiredEnv]: at most six lines, and a
    line for K exactly when K is required and missing. *)
Theorem validate_env_reports (env : ProcessEnv) (console : list string) :
  validate_env env console
  = console ++ map missing_message (filter (env_missing env) requiredEnv)
  /\ List.length (validate_env env console) <= List.length console + 6
  /\ forall k,
       In (missing_message k)
          (map missing_message (filter (env_missing env) requiredEnv))
       <-> In k requiredEnv /\ env_missing env k = true.
Proof.
  unfold validate_env. rewrite validate_loop_lines.
  split; [reflexivity | split].
  - rewrite length_app, length_map.
    pose proof (filter_length_le (env_missing env) requiredEnv) as H.
    simpl List.length in H at 2. lia.
  - intros k. rewrite in_map_iff. split.
    + intros (k' & E & Hk'). apply missing_message_inj in E. subst k'.
      apply filter_In. exact Hk'.
    + intros H. exists k. split; [reflexivity | apply filter_In; exact H].
Qed.

(** ** What every run of a handler looks like *)

Section Handlers.

Context {W : Type} (env : Env W).

Lemma upload_shape (file : option File) (w : W) :
  shape (POST_api_upload file)
    (fst (fst (run env (post_api_upload file) w)))
    (snd (run env (post_api_upload file) w)).
Proof.
  unfold post_api_upload, shape. destruct file as [f | ]; cbn.
  - answers; eexists; (split; [reflexivity | ]); cbn;
      finish_shape.
  - eexists; (split; [reflexivity | ]); cbn;
      finish_shape.
Qed.

Lemma profiles_shape (body : value) (w : W) :
  shape (POST_api_profiles body)
    (fst (fst (run env (post_api_profiles body) w)))
    (snd (run env (post_api_profiles body) w)).
Proof.
  unfold post_api_profiles, shape.
  destruct body; cbn;
    try (match goal with
         | |- context [if ?b then _ else _] => destruct b
         end; cbn);
    answers; eexists; (split; [reflexivity | ]); cbn;
    finish_shape.
Qed.

Lemma lookup_shape (id : string) (w : W) :
  shape (GET_api_profiles_id id)
    (fst (fst (run env (get_api_profiles_id id) w)))
    (snd (run env (get_api_profiles_id id) w)).
Proof.
  unfold get_api_profiles_id, shape. cbn. next_call.
  destruct x as [[[ | first rest] | ] | e]; cbn; answers;
    eexists; (split; [reflexivity | ]); cbn;
    finish_shape.
Qed.

Lemma handler_shape (r : Request) (w : W) :
  shape r (fst (fst (run env (handler r) w))) (snd (run env (handler r) w)).
Proof.
  destruct r as [file | body | id]; simpl handler.
  - apply upload_shape.
  - apply profiles_shape.
  - apply lookup_shape.
Qed.

(** X3.  Whatever the request and whatever the stores do, the handler
    sends a response and does not throw; its status is one of 200, 400,
    500 for an upload, 201, 400, 500 for a create, 200, 404, 500 for a
    lookup. *)
Theorem every_request_is_answered (r : Request) (w : W) :
  exists resp,
    fst (fst (run env (handler r) w)) = Resolved resp
    /\ In (status resp) (statuses r).
Proof.
  destruct (handler_shape r w) as (resp & H1 & H2 & _).
  exists resp. split; assumption.
Qed.

(** X4.  A handler calls [console.error] exactly when it answers 500,
    and then exactly once; with any other status nothing is logged. *)
Theorem logged_iff_500 (r : Request) (w : W) (resp : Response) :
  fst (fst (run env (handler r) w)) = Resolved resp ->
  (status resp = 500%Z
   <-> exists e, logs (snd (run env (handler r) w)) = [console_error e])
  /\ (status resp <> 500%Z <-> logs (snd (run env (handler r) w)) = []).
Proof.
  intros H.
  destruct (handler_shape r w) as (resp' & H1 & _ & L0 & _ & _ & L1).
  rewrite H in H1. injection H1 as <-.
  destruct (Z.eq_dec (status resp) 500) as [E | N].
  - destruct (L1 E) as (e & He & _). split; split; intros X.
    + exists e. exact He.
    + exact E.
    + now elim X.
    + rewrite He in X. discriminate X.
  - pose proof (L0 N) as H0. split; split; intros X.
    + now elim N.
    + destruct X as (e & He). rewrite He in H0. discriminate H0.
    + exact H0.
    + exact N.
Qed.

(** X5.  Each endpoint keeps to its own store: an upload only calls
    [createIfNotExists] and [uploadData], a create only [items.create], a
    lookup only [items.query]; one request makes at most two store calls
    for an upload and at most one for a create or a lookup. *)
Theorem store_calls_by_endpoint (r : Request) (w : W) (c : Call) :
  List.length (store_calls (snd (run env (handler r) w))) <= store_budget r
  /\ (In c (map call (snd (run env (handler r) w))) ->
      is_store_call c = true -> store_of r c = true).
Proof.
  destruct (handler_shape r w) as (resp & _ & _ & _ & S & B & _).
  split; [exact B | ].
  intros Hc Hs. rewrite forallb_forall in S. apply S.
  unfold store_calls. apply filter_In. split; assumption.
Qed.

(** X6.  A 500 always has a cause, and the cause is what is logged: a
    store call of the run that was rejected with that error, or, for a
    create, the [TypeError] of a body that is [undefined] or [null]. *)
Theorem server_error_has_a_cause (r : Request) (w : W) (resp : Response) :
  fst (fst (run env (handler r) w)) = Resolved resp ->
  status resp = 500%Z ->
  exists e,
    logs (snd (run env (handler r) w)) = [console_error e]
    /\ cause r (snd (run env (handler r) w)) e.
Proof.
  intros H E.
  destruct (handler_shape r w) as (resp' & H1 & _ & _ & _ & _ & C).
  rewrite H in H1. injection H1 as <-. exact (C E).
Qed.

(** X7.  A handler answers 400 exactly when the request is invalid (an
    upload without a file; a create whose body can be destructured and
    misses a field), never because of what a store did; and an invalid
    request is answered without any call. *)
Theorem client_error_iff_invalid (r : Request) (w : W) (resp : Response) :
  fst (fst (run env (handler r) w)) = Resolved resp ->
  (status resp = 400%Z <-> invalid r)
  /\ (invalid r -> snd (run env (handler r) w) = []).
Proof.
  destruct r as [[f | ] | body | id]; simpl handler; simpl invalid.
  - unfold post_api_upload; cbn. answers; intros H; injection H as <-;
      (split; [split; intros X; discriminate X | intros X; discriminate X]).
  - cbn. intros H; injection H as <-. repeat split; reflexivity.
  - destruct (profiles_cases env body w)
      as [(err & w1 & C) | [C | (id & w1 & now & w2 & a & w3 & D & F & E1 & E2 & E3)]].
    + rewrite C. cbn. intros H; injection H as <-.
      assert (N : ~ destructurable body).
      { intros D. destruct (missing_fields body) eqn:M.
        - rewrite (post_api_profiles_missing body D M) in C. discriminate C.
        - pose proof (not_missing_all_fields body M) as F.
          destruct (respond env uuidv4 w) as [id w'] eqn:E1.
          destruct (respond env new_Date w') as [now w''] eqn:E2.
          destruct (respond env (items_create (new_profile body id now)) w'')
            as [a w3] eqn:E3.
          rewrite (run_create env body w w' w'' w3 id now a D F E1 E2 E3) in C.
          destruct a; discriminate C. }
      split; [split | ]; intros X; try discriminate X; destruct X as [D _];
        now elim N.
    + rewrite C. cbn. intros H; injection H as <-.
      assert (V : destructurable body /\ missing_fields body = true).
      { assert (D : destructurable body \/ body = JsUndefined \/ body = JsNull).
        { destruct body; try (left; split; discriminate); auto. }
        destruct D as [D | [-> | ->]].
        - split; [exact D | ]. destruct (missing_fields body) eqn:M;
            [reflexivity | ].
          pose proof (not_missing_all_fields body M) as F.
          destruct (respond env uuidv4 w) as [id w'] eqn:E1.
          destruct (respond env new_Date w') as [now w''] eqn:E2.
          destruct (respond env (items_create (new_profile body id now)) w'')
            as [a w3] eqn:E3.
          rewrite (run_create env body w w' w'' w3 id now a D F E1 E2 E3) in C.
          destruct a; discriminate C.
        - cbn in C. destruct (respond env _ w) as [[] ?]. discriminate C.
        - cbn in C. destruct (respond env _ w) as [[] ?]. discriminate C. }
      split; [split; intros _; [exact V | reflexivity] | intros _; reflexivity].
    + rewrite (run_create env body w w1 w2 w3 id now a D F E1 E2 E3).
      pose proof (all_fields_not_missing body F) as M.
      destruct a as [u | err]; cbn; intros H; injection H as <-;
        (split; [split | ]; intros X; try discriminate X;
         destruct X as [_ X]; rewrite M in X; discriminate X).
  - unfold get_api_profiles_id. cbn. next_call.
    destruct x as [[[ | first rest] | ] | e]; cbn; answers;
      intros H; injection H as <-;
      (split; [split | ]; intros X; try discriminate X; try contradiction).
Qed.

(** X8.  A 201 is only sent once the store has accepted the record: the
    run was [uuidv4()], [new Date()] and an [items.create] that resolved,
    and the response carries the record that was handed to the store. *)
Theorem created_means_persisted (body : value) (w : W) (resp : Response) :
  fst (fst (run env (post_api_profiles body) w)) = Resolved resp ->
  status resp = 201%Z ->
  exists (id : string) (now : Z),
    snd (run env (post_api_profiles body) w)
    = [mkEvent uuidv4 id; mkEvent new_Date now;
       mkEvent (items_create (new_profile body id now)) (Resolved tt)]
    /\ resp = json 201 (new_profile body id now)
    /\ all_fields body.
Proof.
  destruct (profiles_cases env body w)
    as [(err & w1 & C) | [C | (id & w1 & now & w2 & a & w3 & D & F & E1 & E2 & E3)]].
  - rewrite C. cbn. intros H S. injection H as <-. discriminate S.
  - rewrite C. cbn. intros H S. injection H as <-. discriminate S.
  - rewrite (run_create env body w w1 w2 w3 id now a D F E1 E2 E3).
    destruct a as [[] | err]; cbn; intros H S; injection H as <-;
      [ | discriminate S].
    exists id, now. split; [reflexivity | split; [reflexivity | exact F]].
Qed.

End Handlers.

(** ** The name of the stored object (lines 85 to 92) *)

Section Tidy.

Variable chars : list ascii.

Lemma plain_between_empty (lo hi : nat) :
  hi <= lo -> plain_between chars lo hi.
Proof. intros H j c Hj. lia. Qed.

Lemma plain_between_extend (i e : nat) (c : ascii) :
  nth_error chars i = Some c -> plain c ->
  plain_between chars (S i) e -> plain_between chars i e.
Proof.
  intros Hc Hp H j c' Hj Hc'.
  destruct (Nat.eq_dec j i) as [-> | N].
  - rewrite Hc in Hc'. injection Hc' as <-. exact Hp.
  - apply (H j c'); [lia | exact Hc'].
Qed.

Lemma tidy_step (i : nat) (c : ascii) (s : path.scan) :
  nth_error chars i = Some c ->
  tidy chars (S i) s -> tidy chars i (path.step i c s).
Proof.
  intros Hc (B & A & D & M).
  destruct s as [sd sp e ms pds st]. unfold path.step. simpl in *.
  assert (P : path.is_dot c = false -> path.is_slash c = false -> plain c)
    by (intros; split; assumption).
  destruct st, (path.is_slash c) eqn:Sl, ms, e as [e | ],
    (path.is_dot c) eqn:Dt, sd as [sd | ];
    simpl; (split; [ | split; [ | split]]); simpl;
    try (intros X; discriminate X);
    try (intros _ X; discriminate X);
    try (intros _ X; now elim X);
    try (intros X; now elim X);
    try (intros; reflexivity);
    auto.
  all: try (exfalso; first [ now apply D | apply D; discriminate
                            | assert (X : true = false)
                                by (apply M; [reflexivity | discriminate]);
                              discriminate X ]).
  all: try (intros sd' e' Hsd He; try discriminate Hsd; try discriminate He;
            injection Hsd as <-; injection He as <-).
  all: try (intros _ _ e' He; try discriminate He; injection He as <-).
  all: try (apply (plain_between_extend i _ c Hc (P eq_refl eq_refl))).
  all: try (apply plain_between_empty; lia).
  all: apply (A eq_refl eq_refl _ eq_refl).
Qed.

Lemma tidy_loop (n : nat) (s : path.scan) :
  n <= List.length chars ->
  tidy chars n s -> tidy chars 0 (path.loop (rev (firstn n chars)) n s).
Proof.
  revert s. induction n as [ | i IH]; intros s Hn Hs.
  - simpl. exact Hs.
  - assert (Hi : i < List.length chars) by lia.
    destruct (nth_error chars i) as [c | ] eqn:Hc;
      [ | apply nth_error_None in Hc; lia].
    assert (F : firstn (S i) chars = firstn i chars ++ [c]).
    { clear - Hc. revert i Hc. induction chars as [ | a l IHl]; intros i Hc.
      - destruct i; discriminate Hc.
      - destruct i as [ | i]; simpl in *.
        + inversion Hc; reflexivity.
        + rewrite (IHl i Hc). reflexivity. }
    rewrite F, rev_app_distr. simpl.
    apply IH; [lia | ]. apply tidy_step; assumption.
Qed.

End Tidy.

Lemma substring_cons (p : string) (sd k : nat) (c : ascii) :
  nth_error (list_ascii_of_string p) sd = Some c ->
  substring sd (S k) p = String c (substring (S sd) k p).
Proof.
  revert sd. induction p as [ | a p IH]; intros sd H.
  - destruct sd; discriminate H.
  - destruct sd as [ | sd]; simpl in H.
    + injection H as ->. reflexivity.
    + change (substring (S sd) (S k) (String a p)) with (substring sd (S k) p).
      rewrite (IH sd H). reflexivity.
Qed.

Lemma substring_chars (p : string) (n m : nat) :
  list_ascii_of_string (substring n m p)
  = firstn m (skipn n (list_ascii_of_string p)).
Proof.
  revert n m. induction p as [ | a p IH]; intros n m.
  - destruct n, m; reflexivity.
  - destruct n as [ | n].
    + destruct m as [ | m]; simpl; [reflexivity | ].
      f_equal. exact (IH 0 m).
    + simpl. exact (IH n m).
Qed.

Lemma in_firstn_skipn {A : Type} (l : list A) (n m : nat) (x : A) :
  In x (firstn m (skipn n l)) ->
  exists j, n <= j < n + m /\ nth_error l j = Some x.
Proof.
  intros H. apply In_nth_error in H. destruct H as (k & Hk).
  assert (Hlt : k < m).
  { assert (L : k < List.length (firstn m (skipn n l)))
      by (apply nth_error_Some; rewrite Hk; discriminate).
    rewrite length_firstn in L. lia. }
  rewrite nth_error_firstn in Hk.
  destruct (Nat.ltb_spec k m); [ | lia].
  rewrite nth_error_skipn in Hk.
  exists (n + k). split; [lia | exact Hk].
Qed.

(** [path.extname] gives nothing, or a dot followed by characters that
    are neither dots nor slashes. *)
Lemma extname_plain (p : string) :
  path.extname p = ""
  \/ exists rest,
       path.extname p = String "." rest
       /\ forall c, In c (list_ascii_of_string rest) -> plain c.
Proof.
  unfold path.extname.
  set (chars := list_ascii_of_string p).
  assert (L : String.length p = List.length chars)
    by (symmetry; apply length_list_ascii).
  assert (F : chars = firstn (String.length p) chars)
    by (rewrite L, firstn_all; reflexivity).
  assert (S0 : scanned chars (String.length p) path.scan0).
  { split; simpl; intros x H; discriminate H. }
  assert (T0 : tidy chars (String.length p) path.scan0).
  { repeat split; simpl; try discriminate; auto. intros X; now elim X. }
  pose proof (scanned_loop chars (String.length p) path.scan0
                (Nat.eq_le_incl _ _ L) S0) as H.
  pose proof (tidy_loop chars (String.length p) path.scan0
                (Nat.eq_le_incl _ _ L) T0) as T.
  rewrite <- F in H, T. destruct H as [_ Hd]. destruct T as [B _]. cbv zeta.
  destruct (path.startDot _) as [sd | ] eqn:SD; [ | left; reflexivity].
  destruct (Hd sd eq_refl) as (Hn & e & He & Hlt).
  rewrite He. specialize (B sd e eq_refl He).
  match goal with
  | |- context [if ?b then _ else _] => destruct b
  end; [left; reflexivity | right].
  unfold path.slice.
  remember (e - sd - 1) as k eqn:K.
  replace (e - sd) with (S k) by lia.
  exists (substring (S sd) k p). split.
  - exact (substring_cons p sd k _ Hn).
  - intros c Hc. rewrite substring_chars in Hc.
    apply in_firstn_skipn in Hc. destruct Hc as (j & Hj & Hc).
    apply (B j c); [lia | exact Hc].
Qed.


Lemma dot_not_plain (c : ascii) : plain c -> c <> "."%char.
Proof. intros [H _] ->. discriminate H. Qed.

Lemma in_chars_app (u v : string) (c : ascii) :
  In c (list_ascii_of_string v) -> In c (list_ascii_of_string (u ++ v)%string).
Proof.
  intros H. induction u as [ | a u IH]; simpl; [exact H | right; exact IH].
Qed.

(** A name splits in one way only into a prefix, a dot and a plain rest. *)
Lemma split_at_last_dot (u1 u2 r1 r2 : string) :
  (forall c, In c (list_ascii_of_string r1) -> plain c) ->
  (forall c, In c (list_ascii_of_string r2) -> plain c) ->
  (u1 ++ String "." r1 = u2 ++ String "." r2)%string ->
  u1 = u2 /\ r1 = r2.
Proof.
  intros P1 P2. revert u2.
  induction u1 as [ | a u1 IH]; intros [ | b u2] H; simpl in H.
  - injection H as ->. split; reflexivity.
  - injection H as <- H. exfalso.
    apply (dot_not_plain "."%char); [ | reflexivity].
    apply P1. rewrite H. apply in_chars_app. left. reflexivity.
  - injection H as -> H. exfalso.
    apply (dot_not_plain "."%char); [ | reflexivity].
    apply P2. rewrite <- H. apply in_chars_app. left. reflexivity.
  - injection H as -> H. destruct (IH u2 H) as [-> ->]. split; reflexivity.
Qed.

Section UploadNames.

Context {W : Type} (env : Env W).

(** The run of the upload handler around a blob write. *)
Lemma upload_write_inv (file : option File) (w : W)
  (n : string) (d : list Byte.byte) (m : string) :
  In (uploadData n d m) (map call (snd (run env (post_api_upload file) w))) ->
  exists (f : File) (u url : string) (a : Outcome unit) (rest : list Event),
    file = Some f /\ d = buffer f /\ m = mimetype f
    /\ n = (u ++ str_or (path.extname (originalname f)) ".jpg")%string
    /\ snd (run env (post_api_upload file) w)
       = mkEvent createIfNotExists (Resolved tt)
         :: mkEvent uuidv4 u
         :: mkEvent (getBlockBlobClient n) url
         :: mkEvent (uploadData n d m) a
         :: rest
    /\ store_calls rest = [] /\ drawn rest = [].
Proof.
  unfold post_api_upload. destruct file as [f | ]; cbn; [ | intros []].
  answers; intros H; simpl in H;
    repeat (destruct H as [H | H]; try discriminate H); try contradiction;
    injection H as <- <- <-;
    exists f; do 4 eexists; repeat split; reflexivity.
Qed.

Lemma str_or_extname_plain (name : string) :
  exists rest,
    str_or (path.extname name) ".jpg" = String "." rest
    /\ forall c, In c (list_ascii_of_string rest) -> plain c.
Proof.
  destruct (extname_plain name) as [E | (rest & E & P)]; rewrite E.
  - exists "jpg". split; [reflexivity | ].
    intros c H. simpl in H.
    destruct H as [<- | [<- | [<- | []]]]; split; reflexivity.
  - exists rest. split; [reflexivity | exact P].
Qed.

(** X9.  A blob is written only after the container check has
    resolved, and at most once in a request: the run starts with the
    resolved [createIfNotExists], the [uuidv4()] call and the blob
    client for the same name, the bytes and the content type are those of
    the file, and no store call follows the write. *)
Theorem upload_writes_after_container_check (file : option File) (w : W)
  (n : string) (d : list Byte.byte) (m : string) :
  In (uploadData n d m) (map call (snd (run env (post_api_upload file) w))) ->
  exists (f : File) (u url : string) (a : Outcome unit) (rest : list Event),
    file = Some f /\ d = buffer f /\ m = mimetype f
    /\ snd (run env (post_api_upload file) w)
       = mkEvent createIfNotExists (Resolved tt)
         :: mkEvent uuidv4 u
         :: mkEvent (getBlockBlobClient n) url
         :: mkEvent (uploadData n d m) a
         :: rest
    /\ store_calls rest = [].
Proof.
  intros H.
  destruct (upload_write_inv file w n d m H)
    as (f & u & url & a & rest & Hf & Hd & Hm & _ & Ht & Hs & _).
  exists f, u, url, a, rest. repeat split; assumption.
Qed.

(** X10.  The name a blob is written under is the identifier drawn in
    this request, a dot, and characters that are neither dots nor
    slashes: of the client's file name only such an extension enters
    it. *)
Theorem blob_name_is_flat (file : option File) (w : W)
  (n : string) (d : list Byte.byte) (m : string) :
  In (uploadData n d m) (map call (snd (run env (post_api_upload file) w))) ->
  exists (u rest : string),
    drawn (snd (run env (post_api_upload file) w)) = [u]
    /\ n = (u ++ String "." rest)%string
    /\ forall c, In c (list_ascii_of_string rest) ->
                 c <> "."%char /\ c <> "/"%char.
Proof.
  intros H.
  destruct (upload_write_inv file w n d m H)
    as (f & u & url & a & rest & _ & _ & _ & Hn & Ht & _ & Hd).
  destruct (str_or_extname_plain (originalname f)) as (r & Hr & P).
  exists u, r. split; [rewrite Ht; simpl; rewrite Hd; reflexivity | ].
  split; [rewrite Hn, Hr; reflexivity | ].
  intros c Hc. destruct (P c Hc) as [D S].
  split; intros ->; discriminate.
Qed.

End UploadNames.

Section TwoUploads.

Context {W W' : Type} (env : Env W) (env' : Env W').

(** X11.  Two uploads that write under the same name drew the same
    identifier from [uuidv4()]: with distinct identifiers no upload
    overwrites another, whatever the file names. *)
Theorem same_name_same_id (file file' : option File) (w : W) (w' : W')
  (n : string) (d d' : list Byte.byte) (m m' : string) :
  In (uploadData n d m) (map call (snd (run env (post_api_upload file) w))) ->
  In (uploadData n d' m')
     (map call (snd (run env' (post_api_upload file') w'))) ->
  exists u,
    drawn (snd (run env (post_api_upload file) w)) = [u]
    /\ drawn (snd (run env' (post_api_upload file') w')) = [u].
Proof.
  intros H H'.
  destruct (upload_write_inv env file w n d m H)
    as (f & u & url & a & rest & _ & _ & _ & Hn & Ht & _ & Hd).
  destruct (upload_write_inv env' file' w' n d' m' H')
    as (f' & u' & url' & a' & rest' & _ & _ & _ & Hn' & Ht' & _ & Hd').
  destruct (str_or_extname_plain (originalname f)) as (r & Hr & P).
  destruct (str_or_extname_plain (originalname f')) as (r' & Hr' & P').
  rewrite Hr in Hn. rewrite Hr' in Hn'. rewrite Hn in Hn'.
  destruct (split_at_last_dot u u' r r' P P' Hn') as [<- _].
  exists u. rewrite Ht, Ht'. simpl. rewrite Hd, Hd'. split; reflexivity.
Qed.

End TwoUploads.

(** ** Concrete runs of the further properties *)

Lemma logged_iff_500_witness :
  fst (fst (run cloud (handler (POST_api_upload (Some cat))) flaky))
  = Resolved (send 500 "Upload failed.")
  /\ (status (send 500 "Upload failed.") = 500%Z
      <-> exists e,
            logs (snd (run cloud (handler (POST_api_upload (Some cat))) flaky))
            = [console_error e])
  /\ (status (send 500 "Upload failed.") <> 500%Z
      <-> logs (snd (run cloud (handler (POST_api_upload (Some cat))) flaky))
          = []).
Proof.
  split; [reflexivity | ].
  apply (logged_iff_500 cloud (POST_api_upload (Some cat)) flaky
           (send 500 "Upload failed.")).
  reflexivity.
Defined.

Lemma server_error_has_a_cause_witness :
  fst (fst (run cloud (handler (POST_api_upload (Some cat))) flaky))
  = Resolved (send 500 "Upload failed.")
  /\ status (send 500 "Upload failed.") = 500%Z
  /\ exists e,
       logs (snd (run cloud (handler (POST_api_upload (Some cat))) flaky))
       = [console_error e]
       /\ cause (POST_api_upload (Some cat))
            (snd (run cloud (handler (POST_api_upload (Some cat))) flaky)) e.
Proof.
  split; [reflexivity | split; [reflexivity | ]].
  apply (server_error_has_a_cause cloud (POST_api_upload (Some cat)) flaky
           (send 500 "Upload failed.")); reflexivity.
Defined.

Lemma client_error_iff_invalid_witness :
  fst (fst (run cloud (handler (POST_api_profiles ageless)) world0))
  = Resolved (send 400 "Missing fields: name, age, bio, imageUrl are required.")
  /\ (status (send 400 "Missing fields: name, age, bio, imageUrl are required.")
      = 400%Z
      <-> invalid (POST_api_profiles ageless))
  /\ (invalid (POST_api_profiles ageless) ->
      snd (run cloud (handler (POST_api_profiles ageless)) world0) = []).
Proof.
  split; [reflexivity | ].
  apply (client_error_iff_invalid cloud (POST_api_profiles ageless) world0
           (send 400 "Missing fields: name, age, bio, imageUrl are required.")).
  reflexivity.
Defined.

Lemma created_means_persisted_witness :
  fst (fst (run cloud (post_api_profiles ana) world0))
  = Resolved (json 201 ana_doc)
  /\ status (json 201 ana_doc) = 201%Z
  /\ exists (id : string) (now : Z),
       snd (run cloud (post_api_profiles ana) world0)
       = [mkEvent uuidv4 id; mkEvent new_Date now;
          mkEvent (items_create (new_profile ana id now)) (Resolved tt)]
       /\ json 201 ana_doc = json 201 (new_profile ana id now)
       /\ all_fields ana.
Proof.
  split; [reflexivity | split; [reflexivity | ]].
  apply (created_means_persisted cloud ana world0 (json 201 ana_doc));
    reflexivity.
Defined.

Lemma upload_writes_after_container_check_witness :
  In (uploadData cat_name (buffer cat) (mimetype cat))
     (map call (snd (run cloud (post_api_upload (Some cat)) world0)))
  /\ exists (f : File) (u url : string) (a : Outcome unit)
            (rest : list Event),
       Some cat = Some f /\ buffer cat = buffer f /\ mimetype cat = mimetype f
       /\ snd (run cloud (post_api_upload (Some cat)) world0)
          = mkEvent createIfNotExists (Resolved tt)
            :: mkEvent uuidv4 u
            :: mkEvent (getBlockBlobClient cat_name) url
            :: mkEvent (uploadData cat_name (buffer cat) (mimetype cat)) a
            :: rest
       /\ store_calls rest = [].
Proof.
  assert (H : In (uploadData cat_name (buffer cat) (mimetype cat))
                (map call (snd (run cloud (post_api_upload (Some cat)) world0)))).
  { simpl. right; right; right; left. reflexivity. }
  split; [exact H | ].
  apply (upload_writes_after_container_check cloud (Some cat) world0 cat_name
           (buffer cat) (mimetype cat) H).
Defined.

Lemma blob_name_is_flat_witness :
  In (uploadData cat_name (buffer cat) (mimetype cat))
     (map call (snd (run cloud (post_api_upload (Some cat)) world0)))
  /\ exists (u rest : string),
       drawn (snd (run cloud (post_api_upload (Some cat)) world0)) = [u]
       /\ cat_name = (u ++ String "." rest)%string
       /\ forall c, In c (list_ascii_of_string rest) ->
                    c <> "."%char /\ c <> "/"%char.
Proof.
  assert (H : In (uploadData cat_name (buffer cat) (mimetype cat))
                (map call (snd (run cloud (post_api_upload (Some cat)) world0)))).
  { simpl. right; right; right; left. reflexivity. }
  split; [exact H | ].
  apply (blob_name_is_flat cloud (Some cat) world0 cat_name (buffer cat)
           (mimetype cat) H).
Defined.

Lemma same_name_same_id_witness :
  In (uploadData cat_name (buffer cat) (mimetype cat))
     (map call (snd (run cloud (post_api_upload (Some cat)) world0)))
  /\ In (uploadData cat_name (buffer dog) (mimetype dog))
        (map call (snd (run cloud (post_api_upload (Some dog)) world0)))
  /\ exists u,
       drawn (snd (run cloud (post_api_upload (Some cat)) world0)) = [u]
       /\ drawn (snd (run cloud (post_api_upload (Some dog)) world0)) = [u].
Proof.
  assert (H : In (uploadData cat_name (buffer cat) (mimetype cat))
                (map call (snd (run cloud (post_api_upload (Some cat)) world0)))).
  { simpl. right; right; right; left. reflexivity. }
  assert (H' : In (uploadData cat_name (buffer dog) (mimetype dog))
                 (map call (snd (run cloud (post_api_upload (Some dog)) world0)))).
  { simpl. right; right; right; left. reflexivity. }
  split; [exact H | split; [exact H' | ]].
  apply (same_name_same_id cloud cloud (Some cat) (Some dog) world0 world0
           cat_name (buffer cat) (buffer dog) (mimetype cat) (mimetype dog)
           H H').
Defined.

(** The start-up check on an environment that sets five of the six
    variables, one of them to the empty string. *)
Example validate_env_example :
  validate_env
    (fun k =>
       if String.eqb k "COSMOS_KEY" then Some ""
       else if String.eqb k "BLOB_CONTAINER" then None
       else Some "set")
    ["earlier line"]
  = ["earlier line"; "Missing env var: COSMOS_KEY";
     "Missing env var: BLOB_CONTAINER"].
Proof. reflexivity. Qed.

(** A file name with directories, dots and a trailing slash gives a flat
    object name; one without extension gets [.jpg]. *)
Example flat_names :
  str_or (path.extname "../../etc/pass.wd/my.photo.JPEG/") ".jpg" = ".JPEG"
  /\ str_or (path.extname "a.b/photo") ".jpg" = ".jpg"
  /\ str_or (path.extname ".hidden") ".jpg" = ".jpg".
Proof. repeat split. Qed.
